(** * Practice14: the character catalog (main.py)

    A shallow embedding of [src/Practice14/main.py]: the [Character] record,
    [DataStorage] with its JSON file, the command strategies, and the [CLI]
    dispatcher and loop.  Python objects that are mutated in place
    ([storage.characters], the file [characters.json], the console) are
    fields of one explicit [State]; a command is a function from [State] to
    an outcome and a new [State], so that what was mutated before an
    exception is raised stays mutated, as in Python. *)

From Stdlib Require Import String Ascii ZArith List Lia Bool DecimalString.
Import ListNotations.
Local Open Scope string_scope.
Local Open Scope Z_scope.

Set Implicit Arguments.

(* ===================================================================== *)
(** ** Python builtins used by main.py *)
(* ===================================================================== *)

Module Py.

(** [str(n)] and [f"{n}"] for an int. *)
Definition str_of_int (n : Z) : string := NilZero.string_of_int (Z.to_int n).

(** The one-character str of a line feed. *)
Definition nl : string := String (ascii_of_nat 10) EmptyString.

(** [s * n] for a str [s]. *)
Fixpoint repeat_str (s : string) (n : nat) : string :=
  match n with
  | O => ""
  | S n' => s ++ repeat_str s n'
  end.

(** [len(l)] as a Python int. *)
Definition len {A} (l : list A) : Z := Z.of_nat (length l).

(** *** A str as a sequence of code points

    A Python str is a sequence of code points; a [string] here holds its
    UTF-8 bytes, and the str methods below work on the code points. *)

(** The code points of a UTF-8 byte sequence.  [acc] holds the bits read of
    the sequence under way and [need] is the number of bytes it still
    lacks. *)
Fixpoint decode_go (s : list ascii) (acc : N) (need : nat) : list N :=
  match s with
  | [] => match need with O => [] | S _ => [acc] end
  | b :: r =>
      let n := N_of_ascii b in
      match need with
      | O =>
          if (n <? 192)%N then n :: decode_go r 0%N O
          else if (n <? 224)%N then decode_go r (n mod 32)%N 1%nat
          else if (n <? 240)%N then decode_go r (n mod 16)%N 2%nat
          else decode_go r (n mod 8)%N 3%nat
      | S O => (acc * 64 + n mod 64)%N :: decode_go r 0%N O
      | S k => decode_go r (acc * 64 + n mod 64)%N k
      end
  end.

Definition decode (s : string) : list N :=
  decode_go (list_ascii_of_string s) 0%N O.

(** The UTF-8 bytes of a code point. *)
Definition encode_cp (c : N) : list ascii :=
  if (c <? 128)%N then [ascii_of_N c]
  else if (c <? 2048)%N then
    [ascii_of_N (192 + c / 64); ascii_of_N (128 + c mod 64)]%N
  else if (c <? 65536)%N then
    [ascii_of_N (224 + c / 4096); ascii_of_N (128 + (c / 64) mod 64);
     ascii_of_N (128 + c mod 64)]%N
  else
    [ascii_of_N (240 + (c / 262144) mod 8);
     ascii_of_N (128 + (c / 4096) mod 64);
     ascii_of_N (128 + (c / 64) mod 64); ascii_of_N (128 + c mod 64)]%N.

Definition encode (cps : list N) : string :=
  string_of_list_ascii (flat_map encode_cp cps).

(** Whether [c] lies in one of the ranges, given with both ends. *)
Definition in_ranges (c : N) (ranges : list (N * N)) : bool :=
  existsb (fun r => (fst r <=? c)%N && (c <=? snd r)%N) ranges.

(** [str.isspace] on a code point: the characters at which [split] cuts and
    which [strip] removes. *)
Definition isspace_cp (c : N) : bool :=
  in_ranges c
    [ (9, 13); (28, 32); (133, 133); (160, 160); (5760, 5760); (8192, 8202);
      (8232, 8233); (8239, 8239); (8287, 8287); (12288, 12288) ]%N.


Fixpoint lstrip (s : list N) : list N :=
  match s with
  | c :: r => if isspace_cp c then lstrip r else s
  | [] => []
  end.

(** [s.strip()] on the code points of [s]. *)
Definition strip_cps (s : list N) : list N :=
  rev (lstrip (rev (lstrip s))).

(** [s.strip()]. *)
Definition strip (s : string) : string := encode (strip_cps (decode s)).

(** [s.split()] on code points: maximal runs of non-space characters, in
    order.  [cur] is the run being read, reversed. *)
Fixpoint split_go (s : list N) (cur : list N) : list (list N) :=
  match s with
  | [] => match cur with [] => [] | _ => [rev cur] end
  | c :: r =>
      if isspace_cp c then
        match cur with
        | [] => split_go r []
        | _ => rev cur :: split_go r []
        end
      else split_go r (c :: cur)
  end.

(** [s.split()]. *)
Definition split (s : string) : list string :=
  map encode (split_go (decode s) []).

(** *** [int(s)] for a str *)

(** The code points above ASCII with the Unicode property Decimal, as
    ranges of whole runs 0..9 (Unicode 14.0, the database of CPython
    3.11): the digit value is the offset in the range modulo 10. *)
Definition decimal_ranges : list (N * N) :=
  [
    (1632, 1641); (1776, 1785); (1984, 1993); (2406, 2415); (2534, 2543);
    (2662, 2671); (2790, 2799); (2918, 2927); (3046, 3055); (3174, 3183);
    (3302, 3311); (3430, 3439); (3558, 3567); (3664, 3673); (3792, 3801);
    (3872, 3881); (4160, 4169); (4240, 4249); (6112, 6121); (6160, 6169);
    (6470, 6479); (6608, 6617); (6784, 6793); (6800, 6809); (6992, 7001);
    (7088, 7097); (7232, 7241); (7248, 7257); (42528, 42537); (43216,
    43225); (43264, 43273); (43472, 43481); (43504, 43513); (43600, 43609);
    (44016, 44025); (65296, 65305); (66720, 66729); (68912, 68921); (69734,
    69743); (69872, 69881); (69942, 69951); (70096, 70105); (70384, 70393);
    (70736, 70745); (70864, 70873); (71248, 71257); (71360, 71369); (71472,
    71481); (71904, 71913); (72016, 72025); (72784, 72793); (73040, 73049);
    (73120, 73129); (92768, 92777); (92864, 92873); (93008, 93017); (120782,
    120831); (123200, 123209); (123632, 123641); (125264, 125273); (130032,
    130041)
  ]%N.

Definition decimal_value (c : N) : option N :=
  match find (fun r => (fst r <=? c)%N && (c <=? snd r)%N) decimal_ranges with
  | Some r => Some ((c - fst r) mod 10)%N
  | None => None
  end.

(** What [int] first makes of a code point: ASCII is kept, another
    whitespace character becomes a space, another decimal digit becomes its
    ASCII digit, and anything else becomes [?]. *)
Definition to_ascii_digit (c : N) : N :=
  if (c <? 127)%N then c
  else if isspace_cp c then 32%N
  else match decimal_value c with
       | Some d => (48 + d)%N
       | None => 63%N
       end.

(** The whitespace [int] skips around the literal: TAB..CR and SPACE. *)
Definition is_c_space (c : N) : bool :=
  ((9 <=? c) && (c <=? 13))%N || (c =? 32)%N.

Definition is_digit (c : N) : bool := ((48 <=? c) && (c <=? 57))%N.

Fixpoint skip_c_space (s : list N) : list N :=
  match s with
  | c :: r => if is_c_space c then skip_c_space r else s
  | [] => []
  end.

(** The run of digits of a literal, with single underscores allowed between
    digits: its value, the number of its digits and what follows it; [None]
    when there is no digit, or an underscore that is not between two
    digits.  [acc] is the value and [count] the number of digits read so
    far, [prev] tells whether the previous character was a digit. *)
Fixpoint int_digits (s : list N) (acc : Z) (count : N) (prev : bool)
  : option (Z * N * list N) :=
  match s with
  | [] => if prev then Some (acc, count, []) else None
  | c :: r =>
      if is_digit c then
        int_digits r (10 * acc + Z.of_N (c - 48)) (count + 1)%N true
      else if (c =? 95)%N then
        if prev then
          match r with
          | d :: _ => if is_digit d then int_digits r acc count false else None
          | [] => None
          end
        else None
      else if prev then Some (acc, count, s) else None
  end.

(** What [int(s)] does: it returns an int, or raises ValueError for an
    invalid literal, or raises ValueError for a literal of more digits
    than the limit. *)
Inductive int_result :=
| IntValue (n : Z)
| IntInvalid
| IntTooLong (digits : N).

(** The default of [sys.get_int_max_str_digits()]. *)
Definition max_str_digits : N := 4300%N.

(** [int(s)], base 10: whitespace, an optional sign, the run of digits,
    whitespace, and nothing else.  The limit on the digits is checked at
    the end of the run, before what follows the run is looked at. *)
Definition int_parse (s : string) : int_result :=
  let body := skip_c_space (map to_ascii_digit (decode s)) in
  let signed (sign : Z) (r : list N) : int_result :=
    match int_digits r 0 0%N false with
    | Some (value, count, rest) =>
        if (max_str_digits <? count)%N then IntTooLong count
        else match skip_c_space rest with
             | [] => IntValue (sign * value)
             | _ => IntInvalid
             end
    | None => IntInvalid
    end in
  match body with
  | c :: r =>
      if (c =? 45)%N then signed (-1) r
      else if (c =? 43)%N then signed 1 r
      else signed 1 body
  | [] => IntInvalid
  end.

(** [int(s)] for a str; [None] is [ValueError]. *)
Definition int (s : string) : option Z :=
  match int_parse s with
  | IntValue n => Some n
  | _ => None
  end.

(** *** [repr(s)] for a str *)

(** The code points above ASCII that [str.isprintable] refuses, and that
    [repr] therefore writes as an escape (Unicode 14.0, the database of
    CPython 3.11). *)
Definition unprintable_ranges : list (N * N) :=
  [
    (128, 160); (173, 173); (888, 889); (896, 899); (907, 907); (909, 909);
    (930, 930); (1328, 1328); (1367, 1368); (1419, 1420); (1424, 1424);
    (1480, 1487); (1515, 1518); (1525, 1541); (1564, 1564); (1757, 1757);
    (1806, 1807); (1867, 1868); (1970, 1983); (2043, 2044); (2094, 2095);
    (2111, 2111); (2140, 2141); (2143, 2143); (2155, 2159); (2191, 2199);
    (2274, 2274); (2436, 2436); (2445, 2446); (2449, 2450); (2473, 2473);
    (2481, 2481); (2483, 2485); (2490, 2491); (2501, 2502); (2505, 2506);
    (2511, 2518); (2520, 2523); (2526, 2526); (2532, 2533); (2559, 2560);
    (2564, 2564); (2571, 2574); (2577, 2578); (2601, 2601); (2609, 2609);
    (2612, 2612); (2615, 2615); (2618, 2619); (2621, 2621); (2627, 2630);
    (2633, 2634); (2638, 2640); (2642, 2648); (2653, 2653); (2655, 2661);
    (2679, 2688); (2692, 2692); (2702, 2702); (2706, 2706); (2729, 2729);
    (2737, 2737); (2740, 2740); (2746, 2747); (2758, 2758); (2762, 2762);
    (2766, 2767); (2769, 2783); (2788, 2789); (2802, 2808); (2816, 2816);
    (2820, 2820); (2829, 2830); (2833, 2834); (2857, 2857); (2865, 2865);
    (2868, 2868); (2874, 2875); (2885, 2886); (2889, 2890); (2894, 2900);
    (2904, 2907); (2910, 2910); (2916, 2917); (2936, 2945); (2948, 2948);
    (2955, 2957); (2961, 2961); (2966, 2968); (2971, 2971); (2973, 2973);
    (2976, 2978); (2981, 2983); (2987, 2989); (3002, 3005); (3011, 3013);
    (3017, 3017); (3022, 3023); (3025, 3030); (3032, 3045); (3067, 3071);
    (3085, 3085); (3089, 3089); (3113, 3113); (3130, 3131); (3141, 3141);
    (3145, 3145); (3150, 3156); (3159, 3159); (3163, 3164); (3166, 3167);
    (3172, 3173); (3184, 3190); (3213, 3213); (3217, 3217); (3241, 3241);
    (3252, 3252); (3258, 3259); (3269, 3269); (3273, 3273); (3278, 3284);
    (3287, 3292); (3295, 3295); (3300, 3301); (3312, 3312); (3315, 3327);
    (3341, 3341); (3345, 3345); (3397, 3397); (3401, 3401); (3408, 3411);
    (3428, 3429); (3456, 3456); (3460, 3460); (3479, 3481); (3506, 3506);
    (3516, 3516); (3518, 3519); (3527, 3529); (3531, 3534); (3541, 3541);
    (3543, 3543); (3552, 3557); (3568, 3569); (3573, 3584); (3643, 3646);
    (3676, 3712); (3715, 3715); (3717, 3717); (3723, 3723); (3748, 3748);
    (3750, 3750); (3774, 3775); (3781, 3781); (3783, 3783); (3790, 3791);
    (3802, 3803); (3808, 3839); (3912, 3912); (3949, 3952); (3992, 3992);
    (4029, 4029); (4045, 4045); (4059, 4095); (4294, 4294); (4296, 4300);
    (4302, 4303); (4681, 4681); (4686, 4687); (4695, 4695); (4697, 4697);
    (4702, 4703); (4745, 4745); (4750, 4751); (4785, 4785); (4790, 4791);
    (4799, 4799); (4801, 4801); (4806, 4807); (4823, 4823); (4881, 4881);
    (4886, 4887); (4955, 4956); (4989, 4991); (5018, 5023); (5110, 5111);
    (5118, 5119); (5760, 5760); (5789, 5791); (5881, 5887); (5910, 5918);
    (5943, 5951); (5972, 5983); (5997, 5997); (6001, 6001); (6004, 6015);
    (6110, 6111); (6122, 6127); (6138, 6143); (6158, 6158); (6170, 6175);
    (6265, 6271); (6315, 6319); (6390, 6399); (6431, 6431); (6444, 6447);
    (6460, 6463); (6465, 6467); (6510, 6511); (6517, 6527); (6572, 6575);
    (6602, 6607); (6619, 6621); (6684, 6685); (6751, 6751); (6781, 6782);
    (6794, 6799); (6810, 6815); (6830, 6831); (6863, 6911); (6989, 6991);
    (7039, 7039); (7156, 7163); (7224, 7226); (7242, 7244); (7305, 7311);
    (7355, 7356); (7368, 7375); (7419, 7423); (7958, 7959); (7966, 7967);
    (8006, 8007); (8014, 8015); (8024, 8024); (8026, 8026); (8028, 8028);
    (8030, 8030); (8062, 8063); (8117, 8117); (8133, 8133); (8148, 8149);
    (8156, 8156); (8176, 8177); (8181, 8181); (8191, 8207); (8232, 8239);
    (8287, 8303); (8306, 8307); (8335, 8335); (8349, 8351); (8385, 8399);
    (8433, 8447); (8588, 8591); (9255, 9279); (9291, 9311); (11124, 11125);
    (11158, 11158); (11508, 11512); (11558, 11558); (11560, 11564); (11566,
    11567); (11624, 11630); (11633, 11646); (11671, 11679); (11687, 11687);
    (11695, 11695); (11703, 11703); (11711, 11711); (11719, 11719); (11727,
    11727); (11735, 11735); (11743, 11743); (11870, 11903); (11930, 11930);
    (12020, 12031); (12246, 12271); (12284, 12288); (12352, 12352); (12439,
    12440); (12544, 12548); (12592, 12592); (12687, 12687); (12772, 12783);
    (12831, 12831); (42125, 42127); (42183, 42191); (42540, 42559); (42744,
    42751); (42955, 42959); (42962, 42962); (42964, 42964); (42970, 42993);
    (43053, 43055); (43066, 43071); (43128, 43135); (43206, 43213); (43226,
    43231); (43348, 43358); (43389, 43391); (43470, 43470); (43482, 43485);
    (43519, 43519); (43575, 43583); (43598, 43599); (43610, 43611); (43715,
    43738); (43767, 43776); (43783, 43784); (43791, 43792); (43799, 43807);
    (43815, 43815); (43823, 43823); (43884, 43887); (44014, 44015); (44026,
    44031); (55204, 55215); (55239, 55242); (55292, 63743); (64110, 64111);
    (64218, 64255); (64263, 64274); (64280, 64284); (64311, 64311); (64317,
    64317); (64319, 64319); (64322, 64322); (64325, 64325); (64451, 64466);
    (64912, 64913); (64968, 64974); (64976, 65007); (65050, 65055); (65107,
    65107); (65127, 65127); (65132, 65135); (65141, 65141); (65277, 65280);
    (65471, 65473); (65480, 65481); (65488, 65489); (65496, 65497); (65501,
    65503); (65511, 65511); (65519, 65531); (65534, 65535); (65548, 65548);
    (65575, 65575); (65595, 65595); (65598, 65598); (65614, 65615); (65630,
    65663); (65787, 65791); (65795, 65798); (65844, 65846); (65935, 65935);
    (65949, 65951); (65953, 65999); (66046, 66175); (66205, 66207); (66257,
    66271); (66300, 66303); (66340, 66348); (66379, 66383); (66427, 66431);
    (66462, 66462); (66500, 66503); (66518, 66559); (66718, 66719); (66730,
    66735); (66772, 66775); (66812, 66815); (66856, 66863); (66916, 66926);
    (66939, 66939); (66955, 66955); (66963, 66963); (66966, 66966); (66978,
    66978); (66994, 66994); (67002, 67002); (67005, 67071); (67383, 67391);
    (67414, 67423); (67432, 67455); (67462, 67462); (67505, 67505); (67515,
    67583); (67590, 67591); (67593, 67593); (67638, 67638); (67641, 67643);
    (67645, 67646); (67670, 67670); (67743, 67750); (67760, 67807); (67827,
    67827); (67830, 67834); (67868, 67870); (67898, 67902); (67904, 67967);
    (68024, 68027); (68048, 68049); (68100, 68100); (68103, 68107); (68116,
    68116); (68120, 68120); (68150, 68151); (68155, 68158); (68169, 68175);
    (68185, 68191); (68256, 68287); (68327, 68330); (68343, 68351); (68406,
    68408); (68438, 68439); (68467, 68471); (68498, 68504); (68509, 68520);
    (68528, 68607); (68681, 68735); (68787, 68799); (68851, 68857); (68904,
    68911); (68922, 69215); (69247, 69247); (69290, 69290); (69294, 69295);
    (69298, 69375); (69416, 69423); (69466, 69487); (69514, 69551); (69580,
    69599); (69623, 69631); (69710, 69713); (69750, 69758); (69821, 69821);
    (69827, 69839); (69865, 69871); (69882, 69887); (69941, 69941); (69960,
    69967); (70007, 70015); (70112, 70112); (70133, 70143); (70162, 70162);
    (70207, 70271); (70279, 70279); (70281, 70281); (70286, 70286); (70302,
    70302); (70314, 70319); (70379, 70383); (70394, 70399); (70404, 70404);
    (70413, 70414); (70417, 70418); (70441, 70441); (70449, 70449); (70452,
    70452); (70458, 70458); (70469, 70470); (70473, 70474); (70478, 70479);
    (70481, 70486); (70488, 70492); (70500, 70501); (70509, 70511); (70517,
    70655); (70748, 70748); (70754, 70783); (70856, 70863); (70874, 71039);
    (71094, 71095); (71134, 71167); (71237, 71247); (71258, 71263); (71277,
    71295); (71354, 71359); (71370, 71423); (71451, 71452); (71468, 71471);
    (71495, 71679); (71740, 71839); (71923, 71934); (71943, 71944); (71946,
    71947); (71956, 71956); (71959, 71959); (71990, 71990); (71993, 71994);
    (72007, 72015); (72026, 72095); (72104, 72105); (72152, 72153); (72165,
    72191); (72264, 72271); (72355, 72367); (72441, 72703); (72713, 72713);
    (72759, 72759); (72774, 72783); (72813, 72815); (72848, 72849); (72872,
    72872); (72887, 72959); (72967, 72967); (72970, 72970); (73015, 73017);
    (73019, 73019); (73022, 73022); (73032, 73039); (73050, 73055); (73062,
    73062); (73065, 73065); (73103, 73103); (73106, 73106); (73113, 73119);
    (73130, 73439); (73465, 73647); (73649, 73663); (73714, 73726); (74650,
    74751); (74863, 74863); (74869, 74879); (75076, 77711); (77811, 77823);
    (78895, 82943); (83527, 92159); (92729, 92735); (92767, 92767); (92778,
    92781); (92863, 92863); (92874, 92879); (92910, 92911); (92918, 92927);
    (92998, 93007); (93018, 93018); (93026, 93026); (93048, 93052); (93072,
    93759); (93851, 93951); (94027, 94030); (94088, 94094); (94112, 94175);
    (94181, 94191); (94194, 94207); (100344, 100351); (101590, 101631);
    (101641, 110575); (110580, 110580); (110588, 110588); (110591, 110591);
    (110883, 110927); (110931, 110947); (110952, 110959); (111356, 113663);
    (113771, 113775); (113789, 113791); (113801, 113807); (113818, 113819);
    (113824, 118527); (118574, 118575); (118599, 118607); (118724, 118783);
    (119030, 119039); (119079, 119080); (119155, 119162); (119275, 119295);
    (119366, 119519); (119540, 119551); (119639, 119647); (119673, 119807);
    (119893, 119893); (119965, 119965); (119968, 119969); (119971, 119972);
    (119975, 119976); (119981, 119981); (119994, 119994); (119996, 119996);
    (120004, 120004); (120070, 120070); (120075, 120076); (120085, 120085);
    (120093, 120093); (120122, 120122); (120127, 120127); (120133, 120133);
    (120135, 120137); (120145, 120145); (120486, 120487); (120780, 120781);
    (121484, 121498); (121504, 121504); (121520, 122623); (122655, 122879);
    (122887, 122887); (122905, 122906); (122914, 122914); (122917, 122917);
    (122923, 123135); (123181, 123183); (123198, 123199); (123210, 123213);
    (123216, 123535); (123567, 123583); (123642, 123646); (123648, 124895);
    (124903, 124903); (124908, 124908); (124911, 124911); (124927, 124927);
    (125125, 125126); (125143, 125183); (125260, 125263); (125274, 125277);
    (125280, 126064); (126133, 126208); (126270, 126463); (126468, 126468);
    (126496, 126496); (126499, 126499); (126501, 126502); (126504, 126504);
    (126515, 126515); (126520, 126520); (126522, 126522); (126524, 126529);
    (126531, 126534); (126536, 126536); (126538, 126538); (126540, 126540);
    (126544, 126544); (126547, 126547); (126549, 126550); (126552, 126552);
    (126554, 126554); (126556, 126556); (126558, 126558); (126560, 126560);
    (126563, 126563); (126565, 126566); (126571, 126571); (126579, 126579);
    (126584, 126584); (126589, 126589); (126591, 126591); (126602, 126602);
    (126620, 126624); (126628, 126628); (126634, 126634); (126652, 126703);
    (126706, 126975); (127020, 127023); (127124, 127135); (127151, 127152);
    (127168, 127168); (127184, 127184); (127222, 127231); (127406, 127461);
    (127491, 127503); (127548, 127551); (127561, 127567); (127570, 127583);
    (127590, 127743); (128728, 128732); (128749, 128751); (128765, 128767);
    (128884, 128895); (128985, 128991); (129004, 129007); (129009, 129023);
    (129036, 129039); (129096, 129103); (129114, 129119); (129160, 129167);
    (129198, 129199); (129202, 129279); (129620, 129631); (129646, 129647);
    (129653, 129655); (129661, 129663); (129671, 129679); (129709, 129711);
    (129723, 129727); (129734, 129743); (129754, 129759); (129768, 129775);
    (129783, 129791); (129939, 129939); (129995, 130031); (130042, 131071);
    (173792, 173823); (177977, 177983); (178206, 178207); (183970, 183983);
    (191457, 194559); (195102, 196607); (201547, 917759); (918000, 1114111)
  ]%N.

Definition isprintable_cp (c : N) : bool :=
  if (c <? 128)%N then (32 <=? c)%N && (c <? 127)%N
  else negb (in_ranges c unprintable_ranges).

(** The code point of the lower-case hexadecimal digit [d]. *)
Definition hex_digit (d : N) : N :=
  if (d <? 10)%N then (48 + d)%N else (87 + d)%N.

(** The [width] lower-case hexadecimal digits of [c]. *)
Fixpoint hex (width : nat) (c : N) : list N :=
  match width with
  | O => []
  | S w => (hex w (c / 16) ++ [hex_digit (c mod 16)])%list
  end.

(** One character of [repr(s)] inside the quote [q]. *)
Definition repr_cp (q c : N) : list N :=
  if (c =? 92)%N then [92; 92]%N
  else if (c =? q)%N then [92%N; c]
  else if (c =? 10)%N then [92; 110]%N
  else if (c =? 13)%N then [92; 114]%N
  else if (c =? 9)%N then [92; 116]%N
  else if isprintable_cp c then [c]
  else if (c <? 256)%N then (92 :: 120 :: hex 2 c)%N
  else if (c <? 65536)%N then (92 :: 117 :: hex 4 c)%N
  else (92 :: 85 :: hex 8 c)%N.

(** The code points of [repr(s)]: single quotes, unless [s] holds a single
    quote and no double quote. *)
Definition repr_cps (s : list N) : list N :=
  let q := if existsb (N.eqb 39) s && negb (existsb (N.eqb 34) s)
           then 34%N else 39%N in
  (q :: flat_map (repr_cp q) s ++ [q])%list.

(** [repr(s)]. *)
Definition repr (s : string) : string := encode (repr_cps (decode s)).

(** [str(e)] for the ValueError of [int(s)]: the literal is shown through
    the format [%.200R], its repr cut after 200 characters. *)
Definition int_message (s : string) : string :=
  match int_parse s with
  | IntTooLong digits =>
      "Exceeds the limit (4300 digits) for integer string conversion: " ++
      "value has " ++ str_of_int (Z.of_N digits) ++
      " digits; use sys.set_int_max_str_digits() to increase the limit"
  | _ =>
      "invalid literal for int() with base 10: " ++
      encode (firstn 200 (repr_cps (decode s)))
  end.

(** *** Lists *)

(** [l[:k]] for an int [k]: the first [k] items, and for a negative [k] all
    but the last [-k]. *)
Definition slice_to {A} (l : list A) (k : Z) : list A :=
  if k <? 0 then firstn (Z.to_nat (len l + k)) l
  else firstn (Z.to_nat k) l.

(** [enumerate(l)], counting from [i]. *)
Fixpoint enumerate_from {A} (i : Z) (l : list A) : list (Z * A) :=
  match l with
  | [] => []
  | x :: r => (i, x) :: enumerate_from (i + 1) r
  end.

Definition enumerate {A} (l : list A) : list (Z * A) := enumerate_from 0 l.

(** [max(l, default=d)] on ints. *)
Definition max_default (l : list Z) (d : Z) : Z :=
  match l with
  | [] => d
  | x :: r => fold_left Z.max r x
  end.

End Py.


(* ===================================================================== *)
(** ** Data model *)
(* ===================================================================== *)

(** [class Character]: the attributes set by [__init__].  The attribute is
    [type]; the constructor's parameter for it is [char_type]. *)
Record Character := mkCharacter {
  id : Z;
  name : string;
  type : string;
  health : Z;
  attack : Z;
  image_url : string
}.

(** A JSON document as [json.load] returns it and [json.dump] takes it
    (numbers with a fraction are left out; the keys of an object are
    distinct, as those of a dict). *)
#[warnings="-register-all"] Inductive json :=
| JNull
| JBool (b : bool)
| JInt (n : Z)
| JStr (s : string)
| JArr (items : list json)
| JObj (members : list (string * json)).

(** [Character.to_dict]. *)
Definition to_dict (c : Character) : json :=
  JObj [ ("id", JInt (id c));
         ("name", JStr (name c));
         ("type", JStr (type c));
         ("health", JInt (health c));
         ("attack", JInt (attack c));
         ("image_url", JStr (image_url c)) ].

(** The keyword parameters of [Character.__init__]. *)
Definition init_params : list string :=
  ["id"; "name"; "char_type"; "health"; "attack"; "image_url"].

Definition kw_lookup (k : string) (kw : list (string * json)) : option json :=
  option_map snd (find (fun p => String.eqb (fst p) k) kw).

(** What the call of [Character] on the unpacked mapping [char] does. *)
Inductive init_result :=
| Built (c : Character)
| InitTypeError                 (* the call raises TypeError *)
| InitUntyped.                  (* an object is built, but a field holds a
                                   value of another type than the Record's *)

Definition as_int (j : json) : option Z :=
  match j with JInt n => Some n | _ => None end.

Definition as_str (j : json) : option string :=
  match j with JStr s => Some s | _ => None end.

(** The call of [Character] with the mapping [char] unpacked into keyword
    arguments, as [load] makes it: every key of [char] has to be a parameter of
    [__init__] (an unexpected keyword argument is a TypeError), every
    parameter but [image_url] has to be given (a missing argument is a
    TypeError), and [image_url] defaults to the empty string. *)
Definition Character_kwargs (char : json) : init_result :=
  match char with
  | JObj kw =>
      if negb (forallb (fun p => existsb (String.eqb (fst p)) init_params) kw)
      then InitTypeError
      else
        match kw_lookup "id" kw, kw_lookup "name" kw, kw_lookup "char_type" kw,
              kw_lookup "health" kw, kw_lookup "attack" kw with
        | Some i, Some n, Some t, Some h, Some a =>
            let u := match kw_lookup "image_url" kw with
                     | Some u => u
                     | None => JStr ""
                     end in
            match as_int i, as_str n, as_str t, as_int h, as_int a, as_str u with
            | Some i, Some n, Some t, Some h, Some a, Some u =>
                Built (mkCharacter i n t h a u)
            | _, _, _, _, _, _ => InitUntyped
            end
        | _, _, _, _, _ => InitTypeError
        end
  | _ => InitTypeError           (* only a mapping can be unpacked *)
  end.

(** What [DataStorage.load] does. *)
Inductive load_result :=
| Loaded (cs : list Character)
| LoadTypeError
| LoadUntyped.

(** The list comprehension of [load]: one [Character] call per item. *)
Fixpoint load_items (data : list json) : load_result :=
  match data with
  | [] => Loaded []
  | char :: rest =>
      match Character_kwargs char with
      | Built c =>
          match load_items rest with
          | Loaded cs => Loaded (c :: cs)
          | r => r
          end
      | InitTypeError => LoadTypeError
      | InitUntyped =>
          match load_items rest with
          | LoadTypeError => LoadTypeError
          | _ => LoadUntyped
          end
      end
  end.

(** The items a [for] loop over a JSON value visits: the items of a list,
    the keys of an object, the characters of a string; other values are not
    iterable. *)
Definition iter_json (data : json) : option (list json) :=
  match data with
  | JArr items => Some items
  | JObj members => Some (map (fun p => JStr (fst p)) members)
  | JStr s => Some (map (fun c => JStr (String c EmptyString))
                        (list_ascii_of_string s))
  | _ => None
  end.

(** [DataStorage.load]; [file] is the content of [self.filename], [None]
    when the file does not exist. *)
Definition load (file : option json) : load_result :=
  match file with
  | Some data =>
      match iter_json data with
      | Some items => load_items items
      | None => LoadTypeError
      end
  | None => Loaded []
  end.

(* ===================================================================== *)
(** ** The process state and the command monad *)
(* ===================================================================== *)

(** The exceptions the commands can raise. *)
Inductive exn :=
| ValueError (literal : string)   (* [int(s)] on a str that is no int *)
| EOFError                        (* [input()] at the end of the input *)
| KeyboardInterrupt.              (* the interrupt signal *)

(** [str(e)], as the loop prints it. *)
Definition str_exn (e : exn) : string :=
  match e with
  | ValueError s => Py.int_message s
  | EOFError => "EOF when reading a line"
  | KeyboardInterrupt => ""
  end.

(** What reaches the console: a printed line, or the prompt of [input]. *)
Inductive output :=
| Printed (s : string)
| Prompted (s : string).

Record State := mkState {
  characters : list Character;   (* storage.characters *)
  file : option json;            (* characters.json; None: no such file *)
  stdin : list string;           (* the lines [input] has still to read *)
  console : list output;         (* what was written, oldest first *)
  requests : list string         (* the names whose detail was asked from
                                    the API, oldest first *)
}.

Inductive outcome (A : Type) :=
| Ok (a : A)
| Raise (e : exn).
Arguments Ok {A} a.
Arguments Raise {A} e.

Definition M (A : Type) : Type := State -> outcome A * State.

Definition ret {A} (a : A) : M A := fun st => (Ok a, st).

Definition bind {A B} (m : M A) (k : A -> M B) : M B :=
  fun st =>
    match m st with
    | (Ok a, st') => k a st'
    | (Raise e, st') => (Raise e, st')
    end.

Definition raise {A} (e : exn) : M A := fun st => (Raise e, st).

(** [try: m  except: h] with a bare [except]. *)
Definition try_except {A} (m : M A) (h : M A) : M A :=
  fun st =>
    match m st with
    | (Ok a, st') => (Ok a, st')
    | (Raise _, st') => h st'
    end.

Declare Scope cmd_scope.
Delimit Scope cmd_scope with cmd.
Notation "x <- c ;; k" := (bind c (fun x => k))
  (at level 61, c at next level, right associativity) : cmd_scope.
Notation "c ;; k" := (bind c (fun _ => k))
  (at level 61, right associativity) : cmd_scope.
Local Open Scope cmd_scope.

(** [print(s)]. *)
Definition print (s : string) : M unit :=
  fun st => (Ok tt, mkState (characters st) (file st) (stdin st)
                            (console st ++ [Printed s])%list (requests st)).

(** [input(prompt)]. *)
Definition input (prompt : string) : M string :=
  fun st =>
    let out := (console st ++ [Prompted prompt])%list in
    match stdin st with
    | line :: rest =>
        (Ok line, mkState (characters st) (file st) rest out (requests st))
    | [] =>
        (Raise EOFError, mkState (characters st) (file st) [] out (requests st))
    end.

(** [int(s)], raising [ValueError]. *)
Definition int (s : string) : M Z :=
  match Py.int s with
  | Some n => ret n
  | None => raise (ValueError s)
  end.

(* ===================================================================== *)
(** ** DataStorage *)
(* ===================================================================== *)

(** [DataStorage.save]: the whole list is written over the file.  (The
    write always succeeds here: a failure of [open] or [json.dump] is
    outside this model.) *)
Definition save : M unit :=
  fun st => (Ok tt, mkState (characters st)
                            (Some (JArr (map to_dict (characters st))))
                            (stdin st) (console st) (requests st)).

(** [DataStorage.add_character]. *)
Definition add_character (character : Character) : M unit :=
  (fun st => (Ok tt, mkState (characters st ++ [character])%list (file st)
                             (stdin st) (console st) (requests st))) ;;
  save.

(** [DataStorage.get_all]. *)
Definition get_all : M (list Character) :=
  fun st => (Ok (characters st), st).

(** The scan of [DataStorage.get_by_id]; [None] is Python's [None]. *)
Fixpoint find_by_id (chars : list Character) (char_id : Z) : option Character :=
  match chars with
  | [] => None
  | char :: rest => if id char =? char_id then Some char
                    else find_by_id rest char_id
  end.

(** [DataStorage.get_by_id]. *)
Definition get_by_id (char_id : Z) : M (option Character) :=
  fun st => (Ok (find_by_id (characters st) char_id), st).

(** [ArgParser.parse_args]. *)
Definition parse_args (input_string : string) : option string * list string :=
  match Py.split (Py.strip input_string) with
  | [] => (None, [])
  | command :: args => (Some command, args)
  end.

(* ===================================================================== *)
(** ** ConsoleRenderer *)
(* ===================================================================== *)

Definition render (data : string) : M unit := print data.

Definition transform (character : Character) : string :=
  Py.str_of_int (id character) ++ ". " ++ name character ++ " (" ++
  type character ++ ") - HP: " ++ Py.str_of_int (health character) ++
  ", ATK: " ++ Py.str_of_int (attack character).

(* ===================================================================== *)
(** ** The command strategies *)
(* ===================================================================== *)

(** [class ICommandStrategy]: the selectors a command answers to and its
    [exec_command(command, args, storage, renderer)]; storage and renderer
    are in the [State]. *)
Record ICommandStrategy := mkStrategy {
  get_command_selectors : list string;
  exec_command : option string -> list string -> M unit
}.

Module ListCommand.

Definition get_command_selectors : list string := ["list"; "ls"].

Fixpoint render_all (chars : list Character) : M unit :=
  match chars with
  | [] => ret tt
  | char :: rest => render (transform char) ;; render_all rest
  end.

Definition exec_command (command : option string) (args : list string) : M unit :=
  chars <- get_all ;;
  match chars with
  | [] => render "Список персонажів порожній"
  | _ => render "=== Список персонажів ===" ;; render_all chars
  end.

Definition strategy := mkStrategy get_command_selectors exec_command.

End ListCommand.

Module AddCommand.

Definition get_command_selectors : list string := ["add"; "create"].

Definition exec_command (command : option string) (args : list string) : M unit :=
  render "=== Створення персонажа ===" ;;
  name <- input "Ім'я: " ;;
  char_type <- input "Тип (воїн/маг/лучник): " ;;
  health_text <- input "Здоров'я: " ;;
  health <- int health_text ;;
  attack_text <- input "Атака: " ;;
  attack <- int attack_text ;;
  image_url <- input "URL зображення (необов'язково): " ;;
  chars <- get_all ;;
  let char_id := Py.len chars + 1 in
  let new_char := mkCharacter char_id name char_type health attack image_url in
  add_character new_char ;;
  render ("✓ Персонаж '" ++ name ++ "' створено!").

Definition strategy := mkStrategy get_command_selectors exec_command.

End AddCommand.

Module ShowCommand.

Definition get_command_selectors : list string := ["show"; "view"].

Definition exec_command (command : option string) (args : list string) : M unit :=
  match args with
  | [] => render "Помилка: вкажіть ID персонажа"
  | arg0 :: _ =>
      char_id <- int arg0 ;;
      char <- get_by_id char_id ;;
      match char with
      | Some char =>
          render (Py.nl ++ "=== " ++ name char ++ " ===") ;;
          render ("ID: " ++ Py.str_of_int (id char)) ;;
          render ("Тип: " ++ type char) ;;
          render ("Здоров'я: " ++ Py.str_of_int (health char)) ;;
          render ("Атака: " ++ Py.str_of_int (attack char)) ;;
          if String.eqb (image_url char) "" then ret tt
          else render ("Зображення: " ++ image_url char)
      | None => render "Персонаж не знайдений"
      end
  end.

Definition strategy := mkStrategy get_command_selectors exec_command.

End ShowCommand.

Module HelpCommand.

Definition get_command_selectors : list string := ["help"; "?"].

Definition help_text : string := "
=== Доступні команди ===
list, ls       - Показати всіх персонажів
add, create    - Додати нового персонажа
show <id>      - Показати деталі персонажа
import, fetch  - Імпортувати персонажів з API
help, ?        - Показати цю довідку
exit, quit     - Вийти з програми
        ".

Definition exec_command (command : option string) (args : list string) : M unit :=
  render help_text.

Definition strategy := mkStrategy get_command_selectors exec_command.

End HelpCommand.

(** Modelled from the spec: [api_client.GenshinAPIClient] and
    [api_client.GenshinCharacterParser] are imported by main.py and are not
    part of the sources.  The spec gives the two operations main.py calls,
    "list all available character names" (a sequence of strings, which may
    be empty) and "fetch character detail by name" (an optional detail), and
    the conversion "detail, assignedId -> Record".  A detail carries the
    Record's fields other than the id. *)
Record Details := mkDetails {
  d_name : string;
  d_type : string;
  d_health : Z;
  d_attack : Z;
  d_image_url : string
}.

Record GenshinAPIClient := mkClient {
  get_all_character_names : list string;
  get_character_details : string -> option Details
}.

(** Modelled from the spec: [GenshinCharacterParser.parse_to_character],
    "convert it into a Record using the assigned id". *)
Definition parse_to_character (details : Details) (assigned_id : Z) : Character :=
  mkCharacter assigned_id (d_name details) (d_type details)
              (d_health details) (d_attack details) (d_image_url details).

Module ImportCommand.

Definition get_command_selectors : list string := ["import"; "fetch"].

Section WithClient.

Variable api_client : GenshinAPIClient.

(** [api_client.get_character_details(name)]: the request is recorded. *)
Definition fetch_details (name : string) : M (option Details) :=
  fun st => (Ok (get_character_details api_client name),
             mkState (characters st) (file st) (stdin st) (console st)
                     (requests st ++ [name])%list).

(** The progress line of item [i] of the loop. *)
Definition progress_line (count i : Z) (name : string) : string :=
  "[" ++ Py.str_of_int (i + 1) ++ "/" ++ Py.str_of_int count ++
  "] Завантаження " ++ name ++ "...".

(** The body of the [for i, name in enumerate(...)] loop; the result is
    [imported] after the body. *)
Definition import_item (count current_max_id : Z) (i : Z) (name : string)
           (imported : Z) : M Z :=
  render (progress_line count i name) ;;
  details <- fetch_details name ;;
  match details with
  | Some details =>
      let char := parse_to_character details (current_max_id + i + 1) in
      add_character char ;;
      ret (imported + 1)
  | None => ret imported
  end.

(** The [for] loop over the enumerated items; the result is [imported]
    after the loop. *)
Fixpoint import_loop (count current_max_id : Z) (items : list (Z * string))
         (imported : Z) : M Z :=
  match items with
  | [] => ret imported
  | (i, name) :: rest =>
      imported' <- import_item count current_max_id i name imported ;;
      import_loop count current_max_id rest imported'
  end.

(** The [try] block that chooses [count]. *)
Definition choose_count (character_names : list string) : M Z :=
  try_except
    (count_text <- input ("Скільки завантажити? (1-" ++
                          Py.str_of_int (Py.len character_names) ++ "): ") ;;
     count <- int count_text ;;
     ret (Z.min count (Py.len character_names)))
    (ret 5).

Definition exec_command (command : option string) (args : list string) : M unit :=
  render "=== Імпорт персонажів з API ===" ;;
  render "Завантаження списку персонажів..." ;;
  let character_names := get_all_character_names api_client in
  match character_names with
  | [] => render "❌ Не вдалося завантажити персонажів"
  | _ =>
      render ("Знайдено " ++ Py.str_of_int (Py.len character_names) ++
              " персонажів") ;;
      count <- choose_count character_names ;;
      render ("Завантаження " ++ Py.str_of_int count ++ " персонажів...") ;;
      chars <- get_all ;;
      let current_max_id := Py.max_default (map id chars) 0 in
      imported <- import_loop count current_max_id
                    (Py.enumerate (Py.slice_to character_names count)) 0 ;;
      render ("✓ Успішно імпортовано " ++ Py.str_of_int imported ++
              " персонажів!")
  end.

Definition strategy := mkStrategy get_command_selectors exec_command.

End WithClient.

End ImportCommand.

(* ===================================================================== *)
(** ** CLI *)
(* ===================================================================== *)

Module CLI.

(** [command in selectors], where [command] may be [None]. *)
Definition is_in (command : option string) (selectors : list string) : bool :=
  match command with
  | Some word => existsb (String.eqb word) selectors
  | None => false
  end.

(** [f"{command}"]. *)
Definition str_command (command : option string) : string :=
  match command with
  | Some word => word
  | None => "None"
  end.

(** [self.commands] as built by [CLI.__init__]. *)
Definition commands (api_client : GenshinAPIClient) : list ICommandStrategy :=
  [ ListCommand.strategy;
    AddCommand.strategy;
    ShowCommand.strategy;
    HelpCommand.strategy;
    ImportCommand.strategy api_client ].

(** The [for cmd_strategy in self.commands] scan of [CLI.exec_command]. *)
Fixpoint scan (cmds : list ICommandStrategy) (command : option string)
         (args : list string) : M bool :=
  match cmds with
  | [] => render ("Невідома команда: " ++ str_command command) ;; ret true
  | cmd_strategy :: rest =>
      if is_in command (get_command_selectors cmd_strategy)
      then exec_command cmd_strategy command args ;; ret true
      else scan rest command args
  end.

(** [CLI.exec_command] over the registered list [cmds]. *)
Definition exec_command (cmds : list ICommandStrategy) (input_string : string)
  : M bool :=
  let '(command, args) := parse_args input_string in
  if is_in command ["exit"; "quit"] then ret false
  else scan cmds command args.

(** One turn of the [while True] loop of [CLI.run]; the result tells
    whether the loop goes on.  KeyboardInterrupt has its own [except]
    clause, which leaves the loop; the other exceptions are printed.  (No
    operation of this model raises KeyboardInterrupt by itself: the signal
    comes from outside the process.) *)
Definition run_turn (cmds : list ICommandStrategy) (st : State) : bool * State :=
  match (user_input <- input (Py.nl ++ "> ") ;;
         exec_command cmds user_input) st with
  | (Ok true, st') => (true, st')
  | (Ok false, st') => (false, snd (print "До побачення!" st'))
  | (Raise KeyboardInterrupt, st') =>
      (false, snd (print (Py.nl ++ "До побачення!") st'))
  | (Raise e, st') => (true, snd (print ("Помилка: " ++ str_exn e) st'))
  end.

(** The loop of [CLI.run], for at most [turns] turns; the result tells
    whether the loop was left by [break]. *)
Fixpoint run_loop (cmds : list ICommandStrategy) (turns : nat) (st : State)
  : bool * State :=
  match turns with
  | O => (false, st)
  | S turns' =>
      match run_turn cmds st with
      | (true, st') => run_loop cmds turns' st'
      | (false, st') => (true, st')
      end
  end.

(** [CLI.display]. *)
Definition display : M unit :=
  print (Py.nl ++ Py.repeat_str "=" 50) ;;
  print "   КАТАЛОГ ПЕРСОНАЖІВ" ;;
  print (Py.repeat_str "=" 50) ;;
  print ("Введіть 'help' для довідки" ++ Py.nl).

(** [CLI.run], for at most [turns] turns of its loop. *)
Definition run (cmds : list ICommandStrategy) (turns : nat) (st : State)
  : bool * State :=
  run_loop cmds turns (snd (display st)).

End CLI.


(* ===================================================================== *)
(** ** Notions used to state the properties *)
(* ===================================================================== *)

Module Spec.

(** Whether the API has a detail for [name]. *)
Definition has_details (api_client : GenshinAPIClient) (name : string) : bool :=
  match get_character_details api_client name with
  | Some _ => true
  | None => false
  end.

(** The enumerated items whose fetch succeeds, in order. *)
Definition successes (api_client : GenshinAPIClient) (items : list (Z * string))
  : list (Z * string) :=
  filter (fun p => has_details api_client (snd p)) items.

(** The Records made from the enumerated items whose fetch succeeds, the
    item of index [i] with the id [base + i + 1]. *)
Definition fetched_records (api_client : GenshinAPIClient) (base : Z)
           (items : list (Z * string)) : list Character :=
  flat_map (fun p => match get_character_details api_client (snd p) with
                     | Some details =>
                         [parse_to_character details (base + fst p + 1)]
                     | None => []
                     end) items.

(** The file after the Records [new] were added one by one to [chars]. *)
Definition file_after (chars : list Character) (f : option json)
           (new : list Character) : option json :=
  match new with
  | [] => f
  | _ => Some (JArr (map to_dict (chars ++ new)))
  end.

(** The count an import run works with, from the lines still to be read:
    the int on the first line, at most the number of names, and 5 when
    there is no line or no int on it. *)
Definition chosen_count (names : list string) (lines : list string) : Z :=
  match lines with
  | line :: _ =>
      match Py.int line with
      | Some c => Z.min c (Py.len names)
      | None => 5
      end
  | [] => 5
  end.

(** The console lines of an import run up to the loop. *)
Definition import_prologue (names : list string) (count : Z) : list output :=
  [ Printed "=== Імпорт персонажів з API ===";
    Printed "Завантаження списку персонажів...";
    Printed ("Знайдено " ++ Py.str_of_int (Py.len names) ++ " персонажів");
    Prompted ("Скільки завантажити? (1-" ++ Py.str_of_int (Py.len names) ++
              "): ");
    Printed ("Завантаження " ++ Py.str_of_int count ++ " персонажів...") ].

(** The last console line of an import run. *)
Definition import_epilogue (imported : Z) : output :=
  Printed ("✓ Успішно імпортовано " ++ Py.str_of_int imported ++
           " персонажів!").

(** The progress lines of the enumerated items. *)
Definition progress_lines (count : Z) (items : list (Z * string)) : list output :=
  map (fun p => Printed (ImportCommand.progress_line count (fst p) (snd p)))
      items.

(** The five lines one Add command reads, in the order it asks for them. *)
Record AddInput := mkAddInput {
  in_name : string;
  in_type : string;
  in_health : string;
  in_attack : string;
  in_image_url : string
}.

Definition add_lines (a : AddInput) : list string :=
  [in_name a; in_type a; in_health a; in_attack a; in_image_url a].

Definition is_int (s : string) : bool :=
  match Py.int s with Some _ => true | None => false end.

(** Valid input for Add: the health and attack lines are ints. *)
Definition valid_add (a : AddInput) : bool :=
  is_int (in_health a) && is_int (in_attack a).

Definition int_value (s : string) : Z :=
  match Py.int s with Some n => n | None => 0 end.

(** The Record an Add command builds from valid input, given its id. *)
Definition added_record (a : AddInput) (char_id : Z) : Character :=
  mkCharacter char_id (in_name a) (in_type a) (int_value (in_health a))
              (int_value (in_attack a)) (in_image_url a).

(** The Records of successive Add commands on a store of [count] Records. *)
Fixpoint added_records (count : Z) (ins : list AddInput) : list Character :=
  match ins with
  | [] => []
  | a :: rest => added_record a (count + 1) :: added_records (count + 1) rest
  end.

(** What one Add command writes to the console. *)
Definition add_console (a : AddInput) : list output :=
  [ Printed "=== Створення персонажа ===";
    Prompted "Ім'я: ";
    Prompted "Тип (воїн/маг/лучник): ";
    Prompted "Здоров'я: ";
    Prompted "Атака: ";
    Prompted "URL зображення (необов'язково): ";
    Printed ("✓ Персонаж '" ++ in_name a ++ "' створено!") ].

(** [n] Add commands, one after the other. *)
Fixpoint add_many (n : nat) : M unit :=
  match n with
  | O => ret tt
  | S n' => AddCommand.exec_command (Some "add") [] ;; add_many n'
  end.

(** [st] with one more printed line. *)
Definition printed (st : State) (line : string) : State :=
  mkState (characters st) (file st) (stdin st)
          (console st ++ [Printed line])%list (requests st).

(** The Records of [st'] that come after those of [st]. *)
Definition new_records (st st' : State) : list Character :=
  skipn (length (characters st)) (characters st').

(** The ids [M+1 .. M+N] for the [N] Records an import run adds to a store
    whose greatest id is [M]: what an import with no gap at a failed fetch
    would assign. *)
Definition import_ids_contiguous (api_client : GenshinAPIClient) (st : State)
  : Prop :=
  let st' := snd (ImportCommand.exec_command api_client (Some "import") [] st) in
  let M := Py.max_default (map id (characters st)) 0 in
  map id (new_records st st') =
  map (fun k => M + Z.of_nat k) (seq 1 (length (new_records st st'))).

(** After the Adds of the valid inputs [ins], read from the input of [st]:
    the list has grown by their number, and every added Record is what
    [get_by_id] returns for its id. *)
Definition adds_retrievable (st : State) (ins : list AddInput)
           (rest : list string) : Prop :=
  forallb valid_add ins = true ->
  stdin st = (flat_map add_lines ins ++ rest)%list ->
  let st' := snd (add_many (length ins) st) in
  length (characters st') = (length (characters st) + length ins)%nat /\
  forall c : Character,
    In c (new_records st st') ->
    find_by_id (characters st') (id c) = Some c.

(** On the line [input_string], the registered list [cmds] runs the first
    of its commands whose selectors hold the command word, and only it. *)
Definition first_match_runs (cmds : list ICommandStrategy)
           (input_string : string) (st : State) : Prop :=
  forall (pre post : list ICommandStrategy) (c : ICommandStrategy),
    cmds = (pre ++ c :: post)%list ->
    (forall p, In p pre ->
               CLI.is_in (fst (parse_args input_string))
                         (get_command_selectors p) = false) ->
    CLI.is_in (fst (parse_args input_string)) (get_command_selectors c)
      = true ->
    CLI.exec_command cmds input_string st
    = bind (exec_command c (fst (parse_args input_string))
                         (snd (parse_args input_string)))
           (fun _ => ret true) st.

End Spec.

(* ===================================================================== *)
(** ** Sample data *)
(* ===================================================================== *)

Module Sample.

Definition amber : Character := mkCharacter 1 "Amber" "Pyro" 100 10 "".

Definition lisa : Character := mkCharacter 2 "Lisa" "Electro" 90 12 "".

(** A client that lists three names and has no detail for the first. *)
Definition client : GenshinAPIClient :=
  mkClient ["albedo"; "bennett"; "chongyun"]
           (fun name => if String.eqb name "albedo" then None
                        else Some (mkDetails name "Cryo" 80 9 "")).

(** A client whose listing is empty. *)
Definition offline : GenshinAPIClient := mkClient [] (fun _ => None).

Definition fresh (chars : list Character) (lines : list string) : State :=
  mkState chars None lines [] [].

(** Two commands that both answer to [go]. *)
Definition first_go : ICommandStrategy :=
  mkStrategy ["go"; "start"] (fun _ _ => render "first").

Definition second_go : ICommandStrategy :=
  mkStrategy ["run"; "go"] (fun _ _ => render "second").

(** A command that answers to [quit]. *)
Definition leave : ICommandStrategy :=
  mkStrategy ["bye"; "quit"] (fun _ _ => render "leaving").

Definition noelle_input : Spec.AddInput :=
  Spec.mkAddInput "Noelle" "Geo" "95" "8" "".

Definition fischl_input : Spec.AddInput :=
  Spec.mkAddInput "Fischl" "Electro" " 70 " "+1_1" "fischl.png".

(** An empty store whose user will answer 3 to the import prompt and then
    enter Noelle for an Add. *)
Definition before_import : State :=
  fresh [] ("3" :: Spec.add_lines noelle_input).

(** The state after an import on [before_import]: the store holds the
    Records of the second and third name, with the ids 2 and 3. *)
Definition after_import : State :=
  snd (ImportCommand.exec_command client (Some "import") [] before_import).

End Sample.

(* ===================================================================== *)
(** ** Further notions: growth of the store, token lines, loadable files *)
(* ===================================================================== *)

Module Props.

(** [st'] holds the Records of [st], in place, followed by new ones; the
    file is that of [st] when none was added, and otherwise the dump of all
    Records of [st']. *)
Definition extends (st st' : State) : Prop :=
  exists new : list Character,
    characters st' = (characters st ++ new)%list /\
    (new = [] -> file st' = file st) /\
    (new <> [] -> file st' = Some (JArr (map to_dict (characters st')))).

(** A command under which the store only grows in that way, whether it
    returns or raises. *)
Definition keeps {A : Type} (m : M A) : Prop :=
  forall st : State, extends st (snd (m st)).

(** A strategy whose [exec_command] keeps the store, for any word and
    arguments. *)
Definition strategy_keeps (c : ICommandStrategy) : Prop :=
  forall (command : option string) (args : list string),
    keeps (exec_command c command args).

(** The ids of the Records are 1, 2, ..., in order. *)
Definition dense (chars : list Character) : Prop :=
  map id chars = map Z.of_nat (seq 1 (length chars)).


(** Code points that UTF-8 encodes: below 0x110000 and no surrogate
    (0xD800..0xDFFF). *)
Definition is_str (s : list N) : bool :=
  forallb (fun c => (c <? 55296)%N || ((57343 <? c)%N && (c <? 1114112)%N)) s.

(** A non-empty run of code points without a whitespace character. *)
Definition is_token_cps (w : list N) : bool :=
  match w with
  | [] => false
  | _ => forallb (fun c => negb (Py.isspace_cp c)) w
  end.

(** A non-empty str without a whitespace character. *)
Definition is_token (w : string) : bool := is_token_cps (Py.decode w).

(** A str of whitespace characters only (possibly empty). *)
Definition is_space_only (s : string) : bool :=
  forallb Py.isspace_cp (Py.decode s).

(** A non-empty run of whitespace characters. *)
Definition is_gap_cps (g : list N) : bool :=
  match g with
  | [] => false
  | _ => forallb Py.isspace_cp g
  end.

(** What [split] still yields from the run [cur] being read (reversed) when
    only whitespace follows. *)
Definition flush (cur : list N) : list (list N) :=
  match cur with
  | [] => []
  | _ => [rev cur]
  end.

(** The code points of the line [lead first gap1 w1 gap2 w2 ... trail]. *)
Definition spaced_cps (lead first : list N) (more : list (list N * list N))
           (trail : list N) : list N :=
  (lead ++ first ++
   fold_right (fun p acc => fst p ++ snd p ++ acc) trail more)%list.

(** The prompts of an Add command, in order. *)
Definition add_prompts : list output :=
  [ Prompted "Ім'я: ";
    Prompted "Тип (воїн/маг/лучник): ";
    Prompted "Здоров'я: ";
    Prompted "Атака: ";
    Prompted "URL зображення (необов'язково): " ].

(** The object of a Record with the keys that [__init__] takes. *)
Definition init_dict (c : Character) : json :=
  JObj [ ("id", JInt (id c)); ("name", JStr (name c));
         ("char_type", JStr (type c)); ("health", JInt (health c));
         ("attack", JInt (attack c)); ("image_url", JStr (image_url c)) ].

(** The same object without the optional key [image_url]. *)
Definition init_dict_no_url (c : Character) : json :=
  JObj [ ("id", JInt (id c)); ("name", JStr (name c));
         ("char_type", JStr (type c)); ("health", JInt (health c));
         ("attack", JInt (attack c)) ].

(** The parameters of [__init__] without a default. *)
Definition required_params : list string :=
  ["id"; "name"; "char_type"; "health"; "attack"].

(** What the loop writes in one turn at the end of the input. *)
Definition eof_turn : list output :=
  [ Prompted (Py.nl ++ "> ");
    Printed "Помилка: EOF when reading a line" ].

(** [n] such turns. *)
Fixpoint eof_turns (n : nat) : list output :=
  match n with
  | O => []
  | S n' => (eof_turn ++ eof_turns n')%list
  end.

(** A Record with an image URL. *)
Definition keqing : Character := mkCharacter 2 "Keqing" "Electro" 85 13 "k.png".

End Props.

Local Open Scope list_scope.
Unset Implicit Arguments.

(** Running a command one step further: the monad and the primitive
    operations are unfolded, and record fields of built states read. *)
Ltac run_cmd :=
  cbv beta iota zeta delta
    [bind ret raise try_except render print input save add_character get_all
     get_by_id ImportCommand.import_item ImportCommand.fetch_details];
  cbn [characters file stdin console requests fst snd].

(* ===================================================================== *)
(** ** Storage: save, then load *)
(* ===================================================================== *)

Section Storage.

(** The object [to_dict] builds has the key [type], which [__init__] does
    not take. *)
Lemma kwargs_of_to_dict (c : Character) :
  Character_kwargs (to_dict c) = InitTypeError.
Proof. reflexivity. Qed.

(** With the key named after the parameter, the same object is accepted and
    gives the Record back. *)
Lemma kwargs_with_char_type (c : Character) :
  Character_kwargs
    (JObj [ ("id", JInt (id c)); ("name", JStr (name c));
            ("char_type", JStr (type c)); ("health", JInt (health c));
            ("attack", JInt (attack c)); ("image_url", JStr (image_url c)) ])
  = Built c.
Proof. destruct c; reflexivity. Qed.

Lemma load_items_to_dict (c : Character) (cs : list Character) :
  load_items (map to_dict (c :: cs)) = LoadTypeError.
Proof. reflexivity. Qed.

(** Saving an empty list and loading it gives the empty list. *)
Lemma load_after_save_empty (st : State) :
  characters st = [] -> load (file (snd (save st))) = Loaded [].
Proof. intros H. unfold save. cbn. rewrite H. reflexivity. Qed.

(** C1 (as the code behaves): after [save()] of a list holding at least one
    Record, a fresh [load()] of the file raises TypeError, whatever the
    Records are: the round trip of the claim is not reproduced, because the
    saved objects carry the key [type] while [__init__] expects
    [char_type]. *)
Theorem load_after_save_raises :
  forall (c : Character) (cs : list Character) (f : option json)
         (lines : list string) (out : list output) (reqs : list string),
    load (file (snd (save (mkState (c :: cs) f lines out reqs))))
    = LoadTypeError.
Proof. intros. reflexivity. Qed.

End Storage.

(* ===================================================================== *)
(** ** The import loop *)
(* ===================================================================== *)

Section Enumerate.

Context {A : Type}.

Lemma enumerate_from_snd (l : list A) :
  forall i, map snd (Py.enumerate_from i l) = l.
Proof. induction l as [|x r IH]; intros i; cbn; [|rewrite IH]; reflexivity. Qed.

Lemma enumerate_from_length (l : list A) :
  forall i, length (Py.enumerate_from i l) = length l.
Proof. induction l as [|x r IH]; intros i; cbn; [|rewrite IH]; reflexivity. Qed.

Lemma enumerate_from_fst (l : list A) :
  forall i, map fst (Py.enumerate_from i l)
            = map (fun k => i + Z.of_nat k) (seq 0 (length l)).
Proof.
  induction l as [|x r IH]; intros i; cbn [Py.enumerate_from map length seq fst].
  - reflexivity.
  - rewrite IH, <- seq_shift, map_map. f_equal; [lia|].
    apply map_ext. intros k. lia.
Qed.

Lemma enumerate_snd (l : list A) : map snd (Py.enumerate l) = l.
Proof. apply enumerate_from_snd. Qed.

Lemma enumerate_fst (l : list A) :
  map fst (Py.enumerate l) = map Z.of_nat (seq 0 (length l)).
Proof. unfold Py.enumerate. now rewrite enumerate_from_fst. Qed.

Lemma slice_to_prefix (l : list A) (k : Z) :
  exists n : nat, Py.slice_to l k = firstn n l.
Proof. unfold Py.slice_to. destruct (k <? 0); eauto. Qed.

Lemma slice_to_length (l : list A) (k : Z) :
  (length (Py.slice_to l k) <= length l)%nat.
Proof.
  destruct (slice_to_prefix l k) as [n ->]. rewrite length_firstn. lia.
Qed.

(** A negative bound that leaves something: all but the last [-k] items. *)
Lemma slice_to_negative (l : list A) (k : Z) :
  k < 0 -> - k < Py.len l ->
  Py.slice_to l k = firstn (length l - Z.to_nat (- k)) l /\
  Py.len (Py.slice_to l k) = Py.len l + k.
Proof.
  intros Hk Hl. unfold Py.slice_to, Py.len in *.
  destruct (k <? 0) eqn:E; [|lia].
  replace (Z.to_nat (Z.of_nat (length l) + k))
    with (length l - Z.to_nat (- k))%nat by lia.
  split; [reflexivity|]. rewrite length_firstn. lia.
Qed.

End Enumerate.

Section ImportLoop.

Variable api_client : GenshinAPIClient.

Lemma fetched_records_ids (base : Z) (items : list (Z * string)) :
  map id (Spec.fetched_records api_client base items)
  = map (fun p => base + fst p + 1) (Spec.successes api_client items).
Proof.
  induction items as [|[i name] rest IH]; [reflexivity|].
  cbn [Spec.fetched_records Spec.successes flat_map filter fst snd].
  unfold Spec.has_details.
  destruct (get_character_details api_client name);
    cbn [app map fst snd parse_to_character id];
    fold (Spec.fetched_records api_client base rest);
    fold (Spec.successes api_client rest); now rewrite IH.
Qed.

Lemma fetched_records_match (base : Z) (items : list (Z * string)) :
  Forall2 (fun c p => exists details,
               get_character_details api_client (snd p) = Some details /\
               c = parse_to_character details (base + fst p + 1))
          (Spec.fetched_records api_client base items)
          (Spec.successes api_client items).
Proof.
  induction items as [|[i name] rest IH]; [constructor|].
  cbn [Spec.fetched_records Spec.successes flat_map filter fst snd].
  unfold Spec.has_details.
  destruct (get_character_details api_client name) as [d|] eqn:E;
    cbn [app]; [|exact IH].
  constructor; [exists d; cbn; auto | exact IH].
Qed.

Lemma fetched_records_length (base : Z) (items : list (Z * string)) :
  length (Spec.fetched_records api_client base items)
  = length (Spec.successes api_client items).
Proof.
  rewrite <- (length_map id), fetched_records_ids. apply length_map.
Qed.

Lemma successes_length (items : list (Z * string)) :
  (length (Spec.successes api_client items) <= length items)%nat.
Proof. apply filter_length_le. Qed.

Lemma new_records_app (st st' : State) (new : list Character) :
  characters st' = characters st ++ new -> Spec.new_records st st' = new.
Proof.
  intros H. unfold Spec.new_records. rewrite H.
  rewrite skipn_app, skipn_all, Nat.sub_diag. reflexivity.
Qed.

Lemma file_after_snoc (chars : list Character) (f : option json)
      (c : Character) (new : list Character) :
  Spec.file_after (chars ++ [c]) (Some (JArr (map to_dict (chars ++ [c])))) new
  = Spec.file_after chars f (c :: new).
Proof.
  destruct new as [|d new]; cbn; [reflexivity|].
  now rewrite <- app_assoc.
Qed.

(** The loop over any enumerated items: it never raises; it appends the
    fetched Records, rewrites the file when there is one, prints one
    progress line and makes one request per item, and returns the counter
    raised by the number of fetched Records. *)
Lemma import_loop_run (count base : Z) (items : list (Z * string)) :
  forall (imported : Z) (st : State),
    ImportCommand.import_loop api_client count base items imported st =
    (Ok (imported + Py.len (Spec.fetched_records api_client base items)),
     mkState (characters st ++ Spec.fetched_records api_client base items)
             (Spec.file_after (characters st) (file st)
                              (Spec.fetched_records api_client base items))
             (stdin st)
             (console st ++ Spec.progress_lines count items)
             (requests st ++ map snd items)).
Proof.
  induction items as [|[i name] rest IH]; intros imported st.
  - cbn. unfold ret, Py.len. cbn. rewrite Z.add_0_r, !app_nil_r.
    now destruct st.
  - cbn [ImportCommand.import_loop]. run_cmd.
    cbn [Spec.fetched_records flat_map Spec.progress_lines map fst snd].
    fold (Spec.fetched_records api_client base rest).
    fold (Spec.progress_lines count rest).
    destruct (get_character_details api_client name) as [d|];
      rewrite IH; cbn [characters file stdin console requests].
    + rewrite (file_after_snoc _ (file st)), <- !app_assoc. cbn [app].
      unfold Py.len. cbn [length].
      do 2 f_equal. lia.
    + rewrite <- !app_assoc. reflexivity.
Qed.

(** The [try] block never raises: it yields the chosen count, prints the
    prompt and consumes one line when there is one. *)
Lemma choose_count_run (names : list string) (st : State) :
  ImportCommand.choose_count names st =
  (Ok (Spec.chosen_count names (stdin st)),
   mkState (characters st) (file st) (tl (stdin st))
           (console st ++
            [Prompted ("Скільки завантажити? (1-" ++
                       Py.str_of_int (Py.len names) ++ "): ")%string])
           (requests st)).
Proof.
  unfold ImportCommand.choose_count, Spec.chosen_count. run_cmd.
  destruct (stdin st) as [|line rest]; run_cmd; [reflexivity|].
  unfold int. destruct (Py.int line) as [c|]; run_cmd; reflexivity.
Qed.

(** A whole import run when the listing is not empty. *)
Lemma import_run (command : option string) (args : list string) (st : State) :
  get_all_character_names api_client <> [] ->
  let names := get_all_character_names api_client in
  let count := Spec.chosen_count names (stdin st) in
  let items := Py.enumerate (Py.slice_to names count) in
  let new := Spec.fetched_records api_client
               (Py.max_default (map id (characters st)) 0) items in
  ImportCommand.exec_command api_client command args st =
  (Ok tt,
   mkState (characters st ++ new)
           (Spec.file_after (characters st) (file st) new)
           (tl (stdin st))
           (console st ++ Spec.import_prologue names count ++
            Spec.progress_lines count items ++
            [Spec.import_epilogue (Py.len new)])
           (requests st ++ map snd items)).
Proof.
  intros Hne. cbv zeta. unfold ImportCommand.exec_command.
  destruct (get_all_character_names api_client) as [|n0 names'];
    [congruence|].
  run_cmd. rewrite choose_count_run. run_cmd.
  rewrite import_loop_run. run_cmd.
  unfold Spec.import_prologue, Spec.import_epilogue.
  rewrite <- !app_assoc. cbn [app]. rewrite Z.add_0_l. reflexivity.
Qed.

(** An import run when the listing is empty. *)
Lemma import_run_empty (command : option string) (args : list string)
      (st : State) :
  get_all_character_names api_client = [] ->
  ImportCommand.exec_command api_client command args st =
  (Ok tt,
   mkState (characters st) (file st) (stdin st)
           (console st ++
            [ Printed "=== Імпорт персонажів з API ===";
              Printed "Завантаження списку персонажів...";
              Printed "❌ Не вдалося завантажити персонажів" ])
           (requests st)).
Proof.
  intros He. unfold ImportCommand.exec_command. rewrite He. run_cmd.
  rewrite <- !app_assoc. reflexivity.
Qed.

Lemma slice_to_nil (k : Z) : Py.slice_to (@nil string) k = [].
Proof. unfold Py.slice_to. destruct (k <? 0); apply firstn_nil. Qed.

(** The Records and the requests of an import run, whatever the listing. *)
Lemma import_effect (command : option string) (args : list string)
      (st : State) :
  let names := get_all_character_names api_client in
  let batch := Py.slice_to names (Spec.chosen_count names (stdin st)) in
  let st' := snd (ImportCommand.exec_command api_client command args st) in
  characters st' =
    characters st ++
    Spec.fetched_records api_client
      (Py.max_default (map id (characters st)) 0) (Py.enumerate batch) /\
  requests st' = requests st ++ batch.
Proof.
  cbv zeta.
  destruct (get_all_character_names api_client) as [|n0 names'] eqn:En.
  - rewrite import_run_empty by exact En. rewrite slice_to_nil. cbn.
    now rewrite !app_nil_r.
  - rewrite import_run by congruence. rewrite En. cbn [snd characters requests].
    now rewrite enumerate_snd.
Qed.

End ImportLoop.

(* ===================================================================== *)
(** ** The Import command *)
(* ===================================================================== *)

Section ImportRun.

Variable api_client : GenshinAPIClient.

(** C2 (amended): on a store whose greatest id is [M] (0 when empty), an
    import run keeps the existing Records and appends, in listing order, one
    Record per name of the batch whose fetch succeeds; the name at 0-based
    position [i] of the batch gets the id [M + i + 1].  The position counts
    every processed name, also those whose fetch fails. *)
Theorem import_ids_by_position (command : option string) (args : list string)
        (st : State) :
  let st' := snd (ImportCommand.exec_command api_client command args st) in
  let M := Py.max_default (map id (characters st)) 0 in
  let names := get_all_character_names api_client in
  let batch := Py.slice_to names (Spec.chosen_count names (stdin st)) in
  firstn (length (characters st)) (characters st') = characters st /\
  map id (Spec.new_records st st')
    = map (fun p => M + fst p + 1)
          (Spec.successes api_client (Py.enumerate batch)) /\
  Forall2 (fun c p => exists details,
               get_character_details api_client (snd p) = Some details /\
               c = parse_to_character details (M + fst p + 1))
          (Spec.new_records st st')
          (Spec.successes api_client (Py.enumerate batch)) /\
  map fst (Py.enumerate batch) = map Z.of_nat (seq 0 (length batch)) /\
  map snd (Py.enumerate batch) = batch.
Proof.
  cbv zeta.
  destruct (import_effect api_client command args st) as [Hc _].
  rewrite (@new_records_app _ _ _ Hc), Hc.
  rewrite firstn_app, firstn_all, Nat.sub_diag, firstn_0, app_nil_r.
  repeat split.
  - apply fetched_records_ids.
  - apply fetched_records_match.
  - apply enumerate_fst.
  - apply enumerate_snd.
Qed.

(** When every fetch of the batch succeeds, the ids are [M+1 .. M+N]. *)
Corollary import_ids_all_fetched (command : option string)
          (args : list string) (st : State) :
  let st' := snd (ImportCommand.exec_command api_client command args st) in
  let M := Py.max_default (map id (characters st)) 0 in
  let names := get_all_character_names api_client in
  let batch := Py.slice_to names (Spec.chosen_count names (stdin st)) in
  forallb (Spec.has_details api_client) batch = true ->
  map id (Spec.new_records st st')
    = map (fun k => M + Z.of_nat k) (seq 1 (length batch)).
Proof.
  cbv zeta. intros Hall.
  destruct (import_effect api_client command args st) as [Hc _].
  rewrite (@new_records_app _ _ _ Hc), fetched_records_ids.
  unfold Spec.successes. rewrite forallb_filter_id.
  - rewrite <- (map_map fst (fun i => _ + i + 1)), enumerate_fst, map_map.
    rewrite <- seq_shift, map_map. apply map_ext. intros k. lia.
  - rewrite forallb_forall in *. intros [i n] Hin. cbn.
    apply Hall. apply (in_map snd) in Hin.
    now rewrite enumerate_snd in Hin.
Qed.

(** C5: when the listing is empty, the command prints its two headers and
    the failure message and returns; the Records, the file, the unread
    input and the requests are what they were. *)
Theorem import_aborts_on_empty_listing (command : option string)
        (args : list string) (st : State) :
  get_all_character_names api_client = [] ->
  ImportCommand.exec_command api_client command args st =
  (Ok tt,
   mkState (characters st) (file st) (stdin st)
           (console st ++
            [ Printed "=== Імпорт персонажів з API ===";
              Printed "Завантаження списку персонажів...";
              Printed "❌ Не вдалося завантажити персонажів" ])
           (requests st)).
Proof. apply import_run_empty. Qed.

(** C6: the count-choosing step yields 5 when the line read is no int (or
    there is no line to read), and otherwise the int read, lowered to the
    number of available names.  The batch of the run is the slice of the
    listing up to that count, so the details requested are a prefix of the
    listing, never more names than exist, and at most that many Records
    are imported. *)
Theorem import_count_default_and_bound (command : option string)
        (args : list string) (st : State) :
  let names := get_all_character_names api_client in
  let st' := snd (ImportCommand.exec_command api_client command args st) in
  exists count : Z,
    fst (ImportCommand.choose_count names st) = Ok count /\
    count = match stdin st with
            | line :: _ => match Py.int line with
                           | Some c => Z.min c (Py.len names)
                           | None => 5
                           end
            | [] => 5
            end /\
    requests st' = requests st ++ Py.slice_to names count /\
    (exists n : nat, Py.slice_to names count = firstn n names) /\
    (length (Py.slice_to names count) <= length names)%nat /\
    (length (Spec.new_records st st') <= length names)%nat.
Proof.
  cbv zeta. exists (Spec.chosen_count (get_all_character_names api_client)
                                      (stdin st)).
  destruct (import_effect api_client command args st) as [Hc Hr].
  rewrite choose_count_run. repeat split.
  - exact Hr.
  - apply slice_to_prefix.
  - apply slice_to_length.
  - rewrite (@new_records_app _ _ _ Hc), fetched_records_length.
    etransitivity; [apply successes_length|].
    rewrite <- (length_map snd), enumerate_snd. apply slice_to_length.
Qed.

(** C7: a name whose fetch gives no detail is skipped.  Its turn of the
    loop prints the progress line and makes the request, does not raise,
    leaves the counter, the Records and the file as they were, and the loop
    goes on with the next name.  At the end of a run the count printed is
    the number of names of the batch whose fetch succeeded, which is the
    number of Records added and is at most the size of the batch. *)
Theorem failed_fetch_is_skipped (count base i imported : Z) (name : string)
        (rest : list (Z * string)) (st : State)
        (command : option string) (args : list string) (st0 : State) :
  get_character_details api_client name = None ->
  get_all_character_names api_client <> [] ->
  let skipped :=
    mkState (characters st) (file st) (stdin st)
            (console st ++
             [Printed (ImportCommand.progress_line count i name)])
            (requests st ++ [name]) in
  ImportCommand.import_item api_client count base i name imported st
    = (Ok imported, skipped) /\
  ImportCommand.import_loop api_client count base ((i, name) :: rest)
                            imported st
    = ImportCommand.import_loop api_client count base rest imported skipped /\
  let names := get_all_character_names api_client in
  let chosen := Spec.chosen_count names (stdin st0) in
  let items := Py.enumerate (Py.slice_to names chosen) in
  let fetched := Spec.successes api_client items in
  let st' := snd (ImportCommand.exec_command api_client command args st0) in
  fst (ImportCommand.exec_command api_client command args st0) = Ok tt /\
  last (console st') (Printed "")
    = Printed ("✓ Успішно імпортовано " ++
               Py.str_of_int (Py.len fetched) ++ " персонажів!")%string /\
  length (Spec.new_records st0 st') = length fetched /\
  (length fetched <= length items)%nat.
Proof.
  intros Hnone Hne. cbv zeta.
  assert (Hitem : ImportCommand.import_item api_client count base i name
                    imported st
                  = (Ok imported,
                     mkState (characters st) (file st) (stdin st)
                       (console st ++
                        [Printed (ImportCommand.progress_line count i name)])
                       (requests st ++ [name]))).
  { run_cmd. rewrite Hnone. reflexivity. }
  split; [exact Hitem|]. split.
  { cbn [ImportCommand.import_loop]. unfold bind at 1. now rewrite Hitem. }
  destruct (import_effect api_client command args st0) as [Hc _].
  rewrite (@new_records_app _ _ _ Hc).
  rewrite (import_run api_client command args st0 Hne).
  cbn [fst snd console]. repeat split.
  - rewrite !app_assoc, last_last. unfold Spec.import_epilogue, Py.len.
    now rewrite fetched_records_length.
  - apply fetched_records_length.
  - apply successes_length.
Qed.

(** C10: when the line read is a negative int [c] and fewer than all names
    are cut off ([-c] is below the number of names), [count] is [c], the
    batch is the slice [names[:c]], that is all names but the last [-c],
    a detail is requested for each of these [available + c] names, and
    each progress line shows [c] itself as its denominator. *)
Theorem import_negative_count (command : option string) (args : list string)
        (st : State) (line : string) (rest : list string) (c : Z) :
  let names := get_all_character_names api_client in
  stdin st = line :: rest ->
  Py.int line = Some c ->
  c < 0 ->
  - c < Py.len names ->
  let st' := snd (ImportCommand.exec_command api_client command args st) in
  let batch := firstn (length names - Z.to_nat (- c)) names in
  fst (ImportCommand.choose_count names st) = Ok c /\
  Py.slice_to names c = batch /\
  Py.len batch = Py.len names + c /\
  requests st' = requests st ++ batch /\
  exists imported : Z,
    console st' =
      console st ++ Spec.import_prologue names c ++
      map (fun p => Printed ("[" ++ Py.str_of_int (fst p + 1) ++ "/" ++
                             Py.str_of_int c ++ "] Завантаження " ++
                             snd p ++ "...")%string)
          (Py.enumerate batch) ++
      [Spec.import_epilogue imported].
Proof.
  cbv zeta. intros Hin Hint Hneg Hlt.
  assert (Hcount : Spec.chosen_count (get_all_character_names api_client)
                                     (stdin st) = c).
  { unfold Spec.chosen_count. rewrite Hin, Hint. unfold Py.len in *. lia. }
  assert (Hne : get_all_character_names api_client <> []).
  { intros He. rewrite He in Hlt. cbn in Hlt. lia. }
  destruct (slice_to_negative (get_all_character_names api_client) c Hneg Hlt)
    as [Hs Hl].
  rewrite choose_count_run, Hcount.
  rewrite (import_run api_client command args st Hne), Hcount.
  cbn [fst snd requests console]. rewrite enumerate_snd.
  split; [reflexivity|]. split; [exact Hs|].
  split; [rewrite <- Hs; exact Hl|].
  rewrite Hs. split; [reflexivity|].
  eexists. reflexivity.
Qed.

End ImportRun.

(* ===================================================================== *)
(** ** The Add command *)
(* ===================================================================== *)

Section AddRun.

Import Spec.

(** One Add command on valid input. *)
Lemma add_run (command : option string) (args : list string) (st : State)
      (a : AddInput) (rest : list string) :
  valid_add a = true ->
  stdin st = add_lines a ++ rest ->
  AddCommand.exec_command command args st =
  (Ok tt,
   let chars := characters st ++ [added_record a (Py.len (characters st) + 1)] in
   mkState chars (Some (JArr (map to_dict chars))) rest
           (console st ++ add_console a) (requests st)).
Proof.
  unfold valid_add, is_int, add_lines. intros Hv Hin.
  apply andb_prop in Hv as [Hh Ha].
  unfold AddCommand.exec_command, added_record, int_value, int. run_cmd.
  rewrite Hin. cbn [app]. run_cmd.
  destruct (Py.int (in_health a)) as [h|]; [|discriminate]. run_cmd.
  destruct (Py.int (in_attack a)) as [k|]; [|discriminate]. run_cmd.
  unfold add_console. rewrite <- !app_assoc. reflexivity.
Qed.

Lemma added_records_length (ins : list AddInput) :
  forall count, length (added_records count ins) = length ins.
Proof. induction ins as [|a r IH]; intros; cbn; [|rewrite IH]; reflexivity. Qed.

Lemma added_records_ids (ins : list AddInput) :
  forall count,
    map id (added_records count ins)
    = map (fun k => count + Z.of_nat k) (seq 1 (length ins)).
Proof.
  induction ins as [|a r IH]; intros count; [reflexivity|].
  cbn [added_records map length seq id added_record].
  rewrite IH, <- (seq_shift (length r) 1), map_map. f_equal.
  apply map_ext. intros k. lia.
Qed.

Lemma added_records_above (ins : list AddInput) :
  forall count c, In c (added_records count ins) ->
                  count < id c <= count + Py.len ins.
Proof.
  unfold Py.len.
  induction ins as [|a r IH]; intros count c Hin; [destruct Hin|].
  cbn [added_records length] in *. destruct Hin as [<-|Hin].
  - cbn. lia.
  - apply IH in Hin. lia.
Qed.

(** [n] Add commands on valid inputs. *)
Lemma add_many_run (ins : list AddInput) :
  forall (st : State) (rest : list string),
    forallb valid_add ins = true ->
    stdin st = flat_map add_lines ins ++ rest ->
    fst (add_many (length ins) st) = Ok tt /\
    characters (snd (add_many (length ins) st))
      = characters st ++ added_records (Py.len (characters st)) ins /\
    stdin (snd (add_many (length ins) st)) = rest.
Proof.
  induction ins as [|a r IH]; intros st rest Hv Hin.
  - cbn in *. now rewrite app_nil_r.
  - cbn [forallb] in Hv. apply andb_prop in Hv as [Ha Hr].
    cbn [flat_map] in Hin. rewrite <- app_assoc in Hin.
    cbn [length add_many]. unfold bind.
    rewrite (add_run (Some "add"%string) [] st a _ Ha Hin).
    cbv zeta.
    match goal with |- context [add_many _ ?s] => set (st1 := s) end.
    destruct (IH st1 rest Hr eq_refl) as (Hok & Hc & Hs).
    rewrite Hok, Hc, Hs. subst st1. cbn [characters].
    repeat split. rewrite <- app_assoc. cbn [app added_records].
    do 3 f_equal. unfold Py.len. rewrite length_app. cbn. lia.
Qed.

Lemma find_by_id_app_miss (l1 l2 : list Character) (k : Z) :
  (forall c, In c l1 -> id c <> k) ->
  find_by_id (l1 ++ l2) k = find_by_id l2 k.
Proof.
  induction l1 as [|x r IH]; intros H; [reflexivity|].
  cbn. destruct (Z.eqb_spec (id x) k) as [E|_].
  - exfalso. apply (H x); [now left | exact E].
  - apply IH. intros c Hc. apply H. now right.
Qed.

Lemma find_by_id_added (ins : list AddInput) :
  forall count c, In c (added_records count ins) ->
                  find_by_id (added_records count ins) (id c) = Some c.
Proof.
  induction ins as [|a r IH]; intros count c Hin; [destruct Hin|].
  cbn [added_records] in *. destruct Hin as [<-|Hin].
  - cbn. now rewrite Z.eqb_refl.
  - cbn [find_by_id added_record id].
    pose proof (added_records_above _ _ _ Hin) as Hab.
    destruct (Z.eqb_spec (count + 1) (id c)) as [E|_]; [lia|].
    now apply IH.
Qed.

(** C3 (amended): after the Adds of valid inputs on any initial store, none
    raises, the list has grown by the number of Adds and the added Records
    have the ids count+1, count+2, ... in order; and when no Record of the
    initial store already carries one of these ids, every added Record is
    what [get_by_id] returns for its id. *)
Theorem adds_counted_and_retrievable (st : State) (ins : list AddInput)
        (rest : list string) :
  forallb valid_add ins = true ->
  stdin st = flat_map add_lines ins ++ rest ->
  let st' := snd (add_many (length ins) st) in
  let count := Py.len (characters st) in
  fst (add_many (length ins) st) = Ok tt /\
  length (characters st') = (length (characters st) + length ins)%nat /\
  firstn (length (characters st)) (characters st') = characters st /\
  map id (new_records st st')
    = map (fun k => count + Z.of_nat k) (seq 1 (length ins)) /\
  (Forall (fun c => id c <= count \/ count + Py.len ins < id c)
          (characters st) ->
   forall c : Character,
     In c (new_records st st') ->
     find_by_id (characters st') (id c) = Some c).
Proof.
  intros Hv Hin. cbv zeta.
  destruct (add_many_run ins st rest Hv Hin) as (Hok & Hc & _).
  rewrite (@new_records_app _ _ _ Hc), Hc.
  split; [exact Hok|]. split.
  { now rewrite length_app, added_records_length. }
  split.
  { now rewrite firstn_app, firstn_all, Nat.sub_diag, firstn_0, app_nil_r. }
  split; [apply added_records_ids|].
  intros Hfree c Hc_in.
  pose proof (added_records_above _ _ _ Hc_in) as Hab.
  rewrite find_by_id_app_miss; [now apply find_by_id_added|].
  intros x Hx. rewrite Forall_forall in Hfree. specialize (Hfree x Hx). lia.
Qed.

(** C4: the Add command gives the new Record the id [len + 1], where [len]
    is the number of Records in the store when it runs, whatever ids these
    carry and whatever the fields entered; three Adds on an empty store
    give the ids 1, 2, 3. *)
Theorem add_assigns_count_plus_one (command : option string)
        (args : list string) (st : State) (a : AddInput) (rest : list string)
        (st3 : State) (a1 a2 a3 : AddInput) (rest3 : list string) :
  valid_add a = true ->
  stdin st = add_lines a ++ rest ->
  forallb valid_add [a1; a2; a3] = true ->
  characters st3 = [] ->
  stdin st3 = add_lines a1 ++ add_lines a2 ++ add_lines a3 ++ rest3 ->
  (fst (AddCommand.exec_command command args st) = Ok tt /\
   exists c : Character,
     characters (snd (AddCommand.exec_command command args st))
       = characters st ++ [c] /\
     id c = Py.len (characters st) + 1 /\
     name c = in_name a /\ type c = in_type a /\
     Py.int (in_health a) = Some (health c) /\
     Py.int (in_attack a) = Some (attack c) /\
     image_url c = in_image_url a) /\
  (fst (add_many 3 st3) = Ok tt /\
   map id (characters (snd (add_many 3 st3))) = [1; 2; 3]).
Proof.
  intros Hv Hin Hv3 Hc3 Hin3. split.
  - rewrite (add_run command args st a rest Hv Hin). cbn [fst snd characters].
    split; [reflexivity|].
    exists (added_record a (Py.len (characters st) + 1)).
    unfold valid_add, is_int in Hv. apply andb_prop in Hv as [Hh Ha].
    unfold added_record, int_value. cbn [id name type health attack image_url].
    destruct (Py.int (in_health a)); [|discriminate].
    destruct (Py.int (in_attack a)); [|discriminate].
    repeat split.
  - assert (Hin3' : stdin st3 = flat_map add_lines [a1; a2; a3] ++ rest3).
    { rewrite Hin3. cbn [flat_map]. now rewrite app_nil_r, <- !app_assoc. }
    destruct (add_many_run [a1; a2; a3] st3 rest3 Hv3 Hin3') as (Hok & Hc & _).
    cbn [length] in Hok, Hc. rewrite Hok, Hc, Hc3. split; reflexivity.
Qed.

(** The id of an Add is not the greatest id plus one: on a store whose one
    Record has the id 7, the added Record gets the id 2. *)
Example add_id_is_count_not_max :
  map id (characters
            (snd (AddCommand.exec_command (Some "add"%string) []
                    (Sample.fresh [mkCharacter 7 "Zhongli" "Geo" 120 14 ""]
                                  ["Noelle"; "Geo"; "95"; "8"; ""]%string))))
  = [7; 2].
Proof. reflexivity. Qed.

End AddRun.

(* ===================================================================== *)
(** ** The Show command and the loop *)
(* ===================================================================== *)

Section ShowRun.

Variable api_client : GenshinAPIClient.



End ShowRun.

(* ===================================================================== *)
(** ** Dispatch *)
(* ===================================================================== *)

Section Dispatch.

(** The scan passes over the commands that do not answer to the word. *)
Lemma scan_skips (pre : list ICommandStrategy) (cmds : list ICommandStrategy)
      (command : option string) (args : list string) :
  (forall p, In p pre ->
             CLI.is_in command (get_command_selectors p) = false) ->
  CLI.scan (pre ++ cmds) command args = CLI.scan cmds command args.
Proof.
  induction pre as [|p pre IH]; intros H; [reflexivity|].
  cbn [app CLI.scan]. rewrite (H p (or_introl eq_refl)).
  apply IH. intros q Hq. apply H. now right.
Qed.

(** C9 (amended): for any registered list and any line whose word is
    neither [exit] nor [quit], the command run is the first one, in registration order,
    whose selectors hold the word: the commands before it are passed over,
    it is executed with the word and the arguments, and the dispatcher
    returns True; whatever is registered after it, also a command with the
    same selector, has no part in the outcome. *)
Theorem dispatch_first_match (pre post : list ICommandStrategy)
        (c : ICommandStrategy) (input_string : string)
        (command : option string) (args : list string) (st : State) :
  parse_args input_string = (command, args) ->
  CLI.is_in command ["exit"; "quit"]%string = false ->
  (forall p, In p pre ->
             CLI.is_in command (get_command_selectors p) = false) ->
  CLI.is_in command (get_command_selectors c) = true ->
  CLI.exec_command (pre ++ c :: post) input_string st
    = bind (exec_command c command args) (fun _ => ret true) st /\
  forall (mid post' : list ICommandStrategy) (later : ICommandStrategy),
    CLI.is_in command (get_command_selectors later) = true ->
    CLI.exec_command (pre ++ c :: mid ++ later :: post') input_string st
    = bind (exec_command c command args) (fun _ => ret true) st.
Proof.
  intros Hparse Hexit Hpre Hc.
  assert (Hany : forall post0,
             CLI.exec_command (pre ++ c :: post0) input_string st
             = bind (exec_command c command args) (fun _ => ret true) st).
  { intros post0. unfold CLI.exec_command. rewrite Hparse, Hexit.
    rewrite scan_skips by exact Hpre. cbn [CLI.scan]. now rewrite Hc. }
  split; [apply Hany|]. intros mid post' later _. apply Hany.
Qed.

End Dispatch.

(* ===================================================================== *)
(** ** Concrete runs *)
(* ===================================================================== *)

(** The round trip at one Record: the file [save] writes makes [load]
    raise. *)
Example load_after_save_amber :
  load (file (snd (save (Sample.fresh [Sample.amber] [])))) = LoadTypeError.
Proof. reflexivity. Qed.

(** C2, as first stated, fails: on a store whose greatest id is 1, an import
    of three names of which the first has no detail adds two Records with
    the ids 3 and 4, not 2 and 3. *)
Lemma import_ids_have_gaps :
  ~ Spec.import_ids_contiguous Sample.client
      (Sample.fresh [Sample.amber] ["3"%string]).
Proof. unfold Spec.import_ids_contiguous. vm_compute. discriminate. Qed.

Example import_ids_with_failed_first :
  map id (characters
            (snd (ImportCommand.exec_command Sample.client
                    (Some "import"%string) []
                    (Sample.fresh [Sample.amber] ["3"%string]))))
  = [1; 3; 4].
Proof. reflexivity. Qed.

(** C3, as first stated, fails: after an import that left the ids 2 and 3
    in a store of two Records, an Add gives its Record the id 3, and
    [get_by_id 3] returns the imported Record, not the added one. *)
Lemma added_record_hidden_by_import :
  ~ Spec.adds_retrievable Sample.after_import [Sample.noelle_input] [].
Proof.
  intros H.
  assert (Hv : forallb Spec.valid_add [Sample.noelle_input] = true)
    by reflexivity.
  assert (Hlines : stdin Sample.after_import
                   = flat_map Spec.add_lines [Sample.noelle_input] ++ [])
    by (vm_compute; reflexivity).
  destruct (H Hv Hlines) as [_ Hfind].
  assert (Hin : In (mkCharacter 3 "Noelle" "Geo" 95 8 "")
                   (Spec.new_records Sample.after_import
                      (snd (Spec.add_many (length [Sample.noelle_input])
                                          Sample.after_import)))).
  { vm_compute. left. reflexivity. }
  apply Hfind in Hin. vm_compute in Hin. discriminate.
Qed.

(** C9, as first stated, fails for the words [exit] and [quit]: they are
    answered before the registered list is scanned, so a registered command
    that declares [quit] is not run on the line [quit]. *)
Lemma quit_selector_is_not_dispatched :
  ~ Spec.first_match_runs [Sample.leave] "quit"
      (Sample.fresh [Sample.amber] []).
Proof.
  intros H.
  assert (Hpre : forall p, In p [] ->
                   CLI.is_in (fst (parse_args "quit"))
                             (get_command_selectors p) = false)
    by (intros p []).
  specialize (H [] [] Sample.leave eq_refl Hpre eq_refl).
  vm_compute in H. discriminate.
Qed.

Lemma adds_counted_and_retrievable_witness :
  let st := Sample.fresh [Sample.amber]
              (Spec.add_lines Sample.noelle_input ++
               Spec.add_lines Sample.fischl_input) in
  let ins := [Sample.noelle_input; Sample.fischl_input] in
  let st' := snd (Spec.add_many 2 st) in
  forallb Spec.valid_add ins = true /\
  stdin st = flat_map Spec.add_lines ins ++ [] /\
  Forall (fun c => id c <= 1 \/ 1 + 2 < id c) (characters st) /\
  length (characters st') = 3%nat /\
  map id (Spec.new_records st st') = [2; 3] /\
  find_by_id (characters st') 3
    = Some (mkCharacter 3 "Fischl" "Electro" 70 11 "fischl.png").
Proof.
  cbv zeta.
  assert (Hv : forallb Spec.valid_add
                 [Sample.noelle_input; Sample.fischl_input] = true)
    by reflexivity.
  assert (Hin : stdin (Sample.fresh [Sample.amber]
                         (Spec.add_lines Sample.noelle_input ++
                          Spec.add_lines Sample.fischl_input))
                = flat_map Spec.add_lines
                    [Sample.noelle_input; Sample.fischl_input] ++ [])
    by reflexivity.
  assert (Hfree : Forall (fun c => id c <= 1 \/ 1 + 2 < id c)
                         (characters (Sample.fresh [Sample.amber]
                            (Spec.add_lines Sample.noelle_input ++
                             Spec.add_lines Sample.fischl_input)))).
  { constructor; [left; cbn; lia | constructor]. }
  destruct (adds_counted_and_retrievable _ _ _ Hv Hin)
    as (_ & Hlen & _ & Hids & Hfind).
  split; [exact Hv|]. split; [exact Hin|]. split; [exact Hfree|].
  split; [exact Hlen|]. split; [exact Hids|].
  apply (Hfind Hfree (mkCharacter 3 "Fischl" "Electro" 70 11 "fischl.png")).
  vm_compute. right. left. reflexivity.
Defined.

Lemma add_assigns_count_plus_one_witness :
  let st := Sample.fresh [mkCharacter 7 "Zhongli" "Geo" 120 14 ""]
              (Spec.add_lines Sample.noelle_input) in
  let st3 := Sample.fresh []
               (Spec.add_lines Sample.noelle_input ++
                Spec.add_lines Sample.fischl_input ++
                Spec.add_lines Sample.noelle_input ++ []) in
  Spec.valid_add Sample.noelle_input = true /\
  stdin st = Spec.add_lines Sample.noelle_input ++ [] /\
  (exists c : Character,
     characters (snd (AddCommand.exec_command (Some "add"%string) [] st))
       = characters st ++ [c] /\ id c = 2) /\
  map id (characters (snd (Spec.add_many 3 st3))) = [1; 2; 3].
Proof.
  cbv zeta.
  assert (Hv : Spec.valid_add Sample.noelle_input = true) by reflexivity.
  assert (Hin : stdin (Sample.fresh [mkCharacter 7 "Zhongli" "Geo" 120 14 ""]
                         (Spec.add_lines Sample.noelle_input))
                = Spec.add_lines Sample.noelle_input ++ []) by reflexivity.
  destruct (add_assigns_count_plus_one (Some "add"%string) []
              (Sample.fresh [mkCharacter 7 "Zhongli" "Geo" 120 14 ""]
                            (Spec.add_lines Sample.noelle_input))
              Sample.noelle_input []
              (Sample.fresh []
                 (Spec.add_lines Sample.noelle_input ++
                  Spec.add_lines Sample.fischl_input ++
                  Spec.add_lines Sample.noelle_input ++ []))
              Sample.noelle_input Sample.fischl_input Sample.noelle_input []
              Hv Hin eq_refl eq_refl eq_refl)
    as ((_ & c & Hc & Hid & _) & (_ & Hids)).
  split; [exact Hv|]. split; [exact Hin|]. split; [|exact Hids].
  exists c. split; [exact Hc | exact Hid].
Defined.

Lemma import_aborts_on_empty_listing_witness :
  get_all_character_names Sample.offline = [] /\
  ImportCommand.exec_command Sample.offline (Some "import"%string) []
    (Sample.fresh [Sample.amber] ["3"%string])
  = (Ok tt,
     mkState [Sample.amber] None ["3"%string]
       [ Printed "=== Імпорт персонажів з API ===";
         Printed "Завантаження списку персонажів...";
         Printed "❌ Не вдалося завантажити персонажів" ]
       []).
Proof.
  split; [reflexivity|].
  exact (import_aborts_on_empty_listing Sample.offline (Some "import"%string)
           [] (Sample.fresh [Sample.amber] ["3"%string]) eq_refl).
Defined.

Lemma failed_fetch_is_skipped_witness :
  let st := Sample.fresh [Sample.amber] [] in
  let st0 := Sample.fresh [Sample.amber] ["3"%string] in
  get_character_details Sample.client "albedo" = None /\
  get_all_character_names Sample.client <> [] /\
  ImportCommand.import_item Sample.client 3 1 0 "albedo" 0 st
    = (Ok 0, mkState [Sample.amber] None []
                     [Printed "[1/3] Завантаження albedo..."]
                     ["albedo"%string]) /\
  fst (ImportCommand.exec_command Sample.client (Some "import"%string) [] st0)
    = Ok tt /\
  last (console (snd (ImportCommand.exec_command Sample.client
                        (Some "import"%string) [] st0)))
       (Printed "")
    = Printed "✓ Успішно імпортовано 2 персонажів!".
Proof.
  cbv zeta.
  assert (Hnone : get_character_details Sample.client "albedo" = None)
    by reflexivity.
  assert (Hne : get_all_character_names Sample.client <> [])
    by discriminate.
  destruct (failed_fetch_is_skipped Sample.client 3 1 0 0 "albedo"
              [(1, "bennett"%string)] (Sample.fresh [Sample.amber] [])
              (Some "import"%string) []
              (Sample.fresh [Sample.amber] ["3"%string]) Hnone Hne)
    as (Hitem & _ & Hok & Hlast & _).
  split; [exact Hnone|]. split; [exact Hne|]. split; [exact Hitem|].
  split; [exact Hok|]. exact Hlast.
Defined.

(** The error line of a turn on [show abc], and the message of a literal
    of 300 characters, cut after the 200 characters of its repr. *)
Example show_abc_error_line :
  CLI.run_turn (CLI.commands Sample.client)
               (Sample.fresh [Sample.amber] ["show abc"; "list"]%string)
  = (true,
     mkState [Sample.amber] None ["list"%string]
       [ Prompted (Py.nl ++ "> ")%string;
         Printed "Помилка: invalid literal for int() with base 10: 'abc'" ]
       []).
Proof. vm_compute. reflexivity. Qed.

Example long_literal_message :
  str_exn (ValueError (Py.repeat_str "a" 300))
  = ("invalid literal for int() with base 10: '" ++ Py.repeat_str "a" 199)%string.
Proof. vm_compute. reflexivity. Qed.


Lemma dispatch_first_match_witness :
  let st := Sample.fresh [Sample.amber] [] in
  parse_args "go now" = (Some "go"%string, ["now"%string]) /\
  CLI.is_in (Some "go"%string) ["exit"; "quit"]%string = false /\
  CLI.is_in (Some "go"%string)
            (get_command_selectors ListCommand.strategy) = false /\
  CLI.is_in (Some "go"%string) (get_command_selectors Sample.first_go)
    = true /\
  CLI.is_in (Some "go"%string) (get_command_selectors Sample.second_go)
    = true /\
  CLI.exec_command
    [ListCommand.strategy; Sample.first_go; Sample.second_go] "go now" st
  = (Ok true, Spec.printed st "first").
Proof.
  cbv zeta.
  assert (Hparse : parse_args "go now" = (Some "go"%string, ["now"%string]))
    by reflexivity.
  assert (Hexit : CLI.is_in (Some "go"%string) ["exit"; "quit"]%string = false)
    by reflexivity.
  assert (Hpre : forall p, In p [ListCommand.strategy] ->
                           CLI.is_in (Some "go"%string)
                                     (get_command_selectors p) = false).
  { intros p [<-|[]]. reflexivity. }
  assert (Hc : CLI.is_in (Some "go"%string)
                         (get_command_selectors Sample.first_go) = true)
    by reflexivity.
  destruct (dispatch_first_match [ListCommand.strategy] [Sample.second_go]
              Sample.first_go "go now" (Some "go"%string) ["now"%string]
              (Sample.fresh [Sample.amber] []) Hparse Hexit Hpre Hc)
    as [Hrun _].
  split; [exact Hparse|]. split; [exact Hexit|].
  split; [reflexivity|]. split; [exact Hc|]. split; [reflexivity|].
  exact Hrun.
Defined.

Lemma import_negative_count_witness :
  let st := Sample.fresh [Sample.amber] ["-1"%string] in
  let st' := snd (ImportCommand.exec_command Sample.client
                    (Some "import"%string) [] st) in
  stdin st = ["-1"%string] /\
  Py.int "-1" = Some (-1) /\
  -1 < 0 /\
  - -1 < Py.len (get_all_character_names Sample.client) /\
  Py.slice_to (get_all_character_names Sample.client) (-1)
    = ["albedo"; "bennett"]%string /\
  requests st' = ["albedo"; "bennett"]%string /\
  exists imported : Z,
    console st' =
      [ Printed "=== Імпорт персонажів з API ===";
        Printed "Завантаження списку персонажів...";
        Printed "Знайдено 3 персонажів";
        Prompted "Скільки завантажити? (1-3): ";
        Printed "Завантаження -1 персонажів...";
        Printed "[1/-1] Завантаження albedo...";
        Printed "[2/-1] Завантаження bennett...";
        Spec.import_epilogue imported ].
Proof.
  cbv zeta.
  assert (Hin : stdin (Sample.fresh [Sample.amber] ["-1"%string])
                = "-1"%string :: []) by reflexivity.
  assert (Hint : Py.int "-1" = Some (-1)) by reflexivity.
  assert (Hneg : -1 < 0) by lia.
  assert (Hlt : - -1 < Py.len (get_all_character_names Sample.client))
    by (vm_compute; reflexivity).
  destruct (import_negative_count Sample.client (Some "import"%string) []
              (Sample.fresh [Sample.amber] ["-1"%string]) "-1" [] (-1)
              Hin Hint Hneg Hlt)
    as (_ & Hslice & _ & Hreq & imported & Hcon).
  split; [exact Hin|]. split; [exact Hint|]. split; [exact Hneg|].
  split; [exact Hlt|]. split; [exact Hslice|]. split; [exact Hreq|].
  exists imported. exact Hcon.
Defined.

(* ===================================================================== *)
(** ** Lookup by id *)
(* ===================================================================== *)

Section Lookup.

(** X1: [get_by_id] returns the first Record, in store order, whose id is
    the one asked for, and [None] exactly when no Record has that id. *)
Theorem get_by_id_first_match (chars : list Character) (k : Z) :
  match find_by_id chars k with
  | Some c =>
      exists pre post : list Character,
        chars = pre ++ c :: post /\ id c = k /\
        forall x, In x pre -> id x <> k
  | None => forall x, In x chars -> id x <> k
  end.
Proof.
  induction chars as [|x r IH]; cbn [find_by_id].
  - intros x [].
  - destruct (Z.eqb_spec (id x) k) as [E|E].
    + exists [], r. repeat split; [exact E | intros y []].
    + destruct (find_by_id r k) as [c|].
      * destruct IH as (pre & post & -> & Hid & Hpre).
        exists (x :: pre), post. repeat split; [exact Hid|].
        intros y [<-|Hy]; [exact E | now apply Hpre].
      * intros y [<-|Hy]; [exact E | now apply IH].
Qed.

Lemma find_by_id_snoc (chars : list Character) (c : Character) (k : Z) :
  find_by_id (chars ++ [c]) k =
  match find_by_id chars k with
  | Some old => Some old
  | None => if id c =? k then Some c else None
  end.
Proof.
  induction chars as [|x r IH]; cbn [app find_by_id]; [reflexivity|].
  destruct (id x =? k); [reflexivity | exact IH].
Qed.

(** X2: [add_character] puts the Record at the end and dumps the whole list
    to the file; afterwards [get_by_id] answers as before for every id it
    found before, and finds the new Record under its id exactly when no
    older Record has that id. *)
Theorem add_character_then_lookup (c : Character) (st : State) (k : Z) :
  let st' := snd (add_character c st) in
  fst (add_character c st) = Ok tt /\
  characters st' = characters st ++ [c] /\
  file st' = Some (JArr (map to_dict (characters st'))) /\
  find_by_id (characters st') k =
    match find_by_id (characters st) k with
    | Some old => Some old
    | None => if id c =? k then Some c else None
    end.
Proof.
  cbv zeta. run_cmd. repeat split. apply find_by_id_snoc.
Qed.

End Lookup.

(* ===================================================================== *)
(** ** The List, Show and Add commands on any state *)
(* ===================================================================== *)

Section Commands.

Lemma render_all_run (chars : list Character) :
  forall st : State,
    ListCommand.render_all chars st =
    (Ok tt,
     mkState (characters st) (file st) (stdin st)
             (console st ++ map (fun c => Printed (transform c)) chars)
             (requests st)).
Proof.
  induction chars as [|c r IH]; intros st; cbn [ListCommand.render_all map].
  - unfold ret. rewrite app_nil_r. now destruct st.
  - run_cmd. rewrite IH. cbn [characters file stdin console requests].
    now rewrite <- app_assoc.
Qed.

(** X3: List never raises, reads no input and changes nothing but the
    console: on an empty store it prints the one line saying so (and no
    header), otherwise the header followed by one line per Record, in store
    order. *)
Theorem list_prints_every_record (command : option string)
        (args : list string) (st : State) :
  ListCommand.exec_command command args st =
  (Ok tt,
   mkState (characters st) (file st) (stdin st)
           (console st ++
            match characters st with
            | [] => [Printed "Список персонажів порожній"]
            | _ => Printed "=== Список персонажів ==="
                   :: map (fun c => Printed (transform c)) (characters st)
            end)
           (requests st)).
Proof.
  unfold ListCommand.exec_command. run_cmd.
  destruct (characters st) as [|c r] eqn:E.
  - run_cmd. now rewrite E.
  - run_cmd. rewrite render_all_run.
    cbn [characters file stdin console requests].
    now rewrite E, <- app_assoc.
Qed.

(** X4: Show with an int that is the id of a Record prints the five lines
    of the first such Record, and a sixth with the image URL only when that
    is not empty; further arguments are ignored and nothing but the console
    changes. *)
Theorem show_prints_found_record (command : option string) (arg : string)
        (args : list string) (st : State) (n : Z) (c : Character) :
  Py.int arg = Some n ->
  find_by_id (characters st) n = Some c ->
  ShowCommand.exec_command command (arg :: args) st =
  (Ok tt,
   mkState (characters st) (file st) (stdin st)
           (console st ++
            [ Printed (Py.nl ++ "=== " ++ name c ++ " ===")%string;
              Printed ("ID: " ++ Py.str_of_int (id c))%string;
              Printed ("Тип: " ++ type c)%string;
              Printed ("Здоров'я: " ++ Py.str_of_int (health c))%string;
              Printed ("Атака: " ++ Py.str_of_int (attack c))%string ] ++
            match image_url c with
            | EmptyString => []
            | url => [Printed ("Зображення: " ++ url)%string]
            end)
           (requests st)).
Proof.
  intros Hint Hfind. unfold ShowCommand.exec_command, int. rewrite Hint.
  run_cmd. rewrite Hfind. run_cmd.
  destruct (image_url c) as [|a u]; cbn [String.eqb]; run_cmd;
    rewrite <- !app_assoc; reflexivity.
Qed.

(** X5: Add saves no partial Record on bad input.  When the health line
    (the third) is no int, or the health line is an int and the attack line
    (the fourth) is not, the command raises the ValueError of that line
    before any Record is built: Records and file are as they were, and the
    lines after the offending one are left unread.  When fewer than five
    lines are left, and those of health and attack that are there are ints,
    it reads them all and raises EOFError, again with Records and file as
    they were. *)
Theorem add_raises_before_saving (command : option string)
        (args : list string) (st : State) :
  (forall (l1 l2 l3 : string) (rest : list string),
      stdin st = l1 :: l2 :: l3 :: rest ->
      Py.int l3 = None ->
      AddCommand.exec_command command args st
      = (Raise (ValueError l3),
         mkState (characters st) (file st) rest
                 (console st ++ Printed "=== Створення персонажа ==="
                             :: firstn 3 Props.add_prompts)
                 (requests st))) /\
  (forall (l1 l2 l3 l4 : string) (rest : list string) (h : Z),
      stdin st = l1 :: l2 :: l3 :: l4 :: rest ->
      Py.int l3 = Some h ->
      Py.int l4 = None ->
      AddCommand.exec_command command args st
      = (Raise (ValueError l4),
         mkState (characters st) (file st) rest
                 (console st ++ Printed "=== Створення персонажа ==="
                             :: firstn 4 Props.add_prompts)
                 (requests st))) /\
  ((length (stdin st) < 5)%nat ->
   (forall s, nth_error (stdin st) 2 = Some s -> Py.int s <> None) ->
   (forall s, nth_error (stdin st) 3 = Some s -> Py.int s <> None) ->
   AddCommand.exec_command command args st
   = (Raise EOFError,
      mkState (characters st) (file st) []
              (console st ++ Printed "=== Створення персонажа ==="
                          :: firstn (S (length (stdin st))) Props.add_prompts)
              (requests st))).
Proof.
  unfold AddCommand.exec_command, int.
  split; [|split].
  - intros l1 l2 l3 rest Hin Hbad. run_cmd. rewrite Hin. run_cmd.
    rewrite Hbad. run_cmd. now rewrite <- !app_assoc.
  - intros l1 l2 l3 l4 rest h Hin Hh Hbad. run_cmd. rewrite Hin. run_cmd.
    rewrite Hh. run_cmd. rewrite Hbad. run_cmd. now rewrite <- !app_assoc.
  - intros Hlen H3 H4. run_cmd.
    destruct (stdin st) as [|l1 [|l2 [|l3 r3]]]; run_cmd;
      try (now rewrite <- !app_assoc).
    destruct (Py.int l3) as [h|] eqn:E3;
      [|now destruct (H3 l3 eq_refl)]. run_cmd.
    destruct r3 as [|l4 r4]; run_cmd; [now rewrite <- !app_assoc|].
    destruct (Py.int l4) as [a|] eqn:E4;
      [|now destruct (H4 l4 eq_refl)]. run_cmd.
    destruct r4 as [|l5 r5]; run_cmd; [now rewrite <- !app_assoc|].
    cbn in Hlen. lia.
Qed.

End Commands.

(* ===================================================================== *)
(** ** UTF-8 *)
(* ===================================================================== *)

Section Utf8.

(** Arithmetic with quotients and remainders by constants. *)
Ltac euclid := zify; Z.to_euclidean_division_equations; lia.

Lemma decode_encode_cp (c : N) (r : list ascii) :
  (c < 2097152)%N ->
  Py.decode_go (Py.encode_cp c ++ r) 0%N O = c :: Py.decode_go r 0%N O.
Proof.
  intros Hc. unfold Py.encode_cp.
  destruct (N.ltb_spec c 128) as [H1|H1].
  - cbn [app Py.decode_go]. rewrite N_ascii_embedding by lia.
    destruct (N.ltb_spec c 192); [reflexivity | lia].
  - destruct (N.ltb_spec c 2048) as [H2|H2].
    + cbn [app Py.decode_go]. rewrite !N_ascii_embedding by euclid.
      destruct (N.ltb_spec (192 + c / 64) 192); [euclid|].
      destruct (N.ltb_spec (192 + c / 64) 224); [|euclid].
      f_equal. euclid.
    + destruct (N.ltb_spec c 65536) as [H3|H3].
      * cbn [app Py.decode_go]. rewrite !N_ascii_embedding by euclid.
        destruct (N.ltb_spec (224 + c / 4096) 192); [euclid|].
        destruct (N.ltb_spec (224 + c / 4096) 224); [euclid|].
        destruct (N.ltb_spec (224 + c / 4096) 240); [|euclid].
        f_equal. euclid.
      * cbn [app Py.decode_go]. rewrite !N_ascii_embedding by euclid.
        destruct (N.ltb_spec (240 + (c / 262144) mod 8) 192); [euclid|].
        destruct (N.ltb_spec (240 + (c / 262144) mod 8) 224); [euclid|].
        destruct (N.ltb_spec (240 + (c / 262144) mod 8) 240); [euclid|].
        f_equal. euclid.
Qed.

(** Encoding code points and decoding the bytes gives the code points
    back. *)
Lemma decode_encode (cps : list N) :
  Forall (fun c => (c < 2097152)%N) cps ->
  Py.decode (Py.encode cps) = cps.
Proof.
  unfold Py.decode, Py.encode. rewrite list_ascii_of_string_of_list_ascii.
  induction 1 as [|c r Hc _ IH]; [reflexivity|].
  cbn [flat_map]. now rewrite decode_encode_cp, IH.
Qed.

Lemma decode_go_bound (s : list ascii) :
  forall (acc : N) (need : nat),
    (acc < match need with
           | O => 1
           | S O => 32768
           | S (S O) => 512
           | S (S (S O)) => 8
           | _ => 0
           end)%N ->
    Forall (fun c => (c < 2097152)%N) (Py.decode_go s acc need).
Proof.
  induction s as [|b r IH]; intros acc need Hacc.
  - cbn. destruct need as [|[|[|[|k]]]]; repeat constructor; lia.
  - pose proof (N_ascii_bounded b) as Hb.
    cbn [Py.decode_go]. destruct need as [|[|[|[|k]]]].
    + destruct (N.ltb_spec (N_of_ascii b) 192).
      * constructor; [lia | apply IH; lia].
      * destruct (N.ltb_spec (N_of_ascii b) 224); [apply IH; euclid|].
        destruct (N.ltb_spec (N_of_ascii b) 240); apply IH; euclid.
    + constructor; [euclid | apply IH; lia].
    + apply IH. euclid.
    + apply IH. euclid.
    + lia.
Qed.

Lemma decode_bound (s : string) :
  Forall (fun c => (c < 2097152)%N) (Py.decode s).
Proof. apply decode_go_bound. lia. Qed.



End Utf8.

(* ===================================================================== *)
(** ** Splitting a line *)
(* ===================================================================== *)

Section Split.

Lemma split_go_blank (ws : list N) :
  forallb Py.isspace_cp ws = true ->
  forall cur, Py.split_go ws cur = Props.flush cur.
Proof.
  induction ws as [|c r IH]; intros Hb cur; [reflexivity|].
  cbn [forallb] in Hb. apply andb_prop in Hb as [Hc Hr].
  cbn [Py.split_go]. rewrite Hc.
  destruct cur; rewrite (IH Hr); reflexivity.
Qed.

Lemma split_go_trailing (l ws : list N) :
  forallb Py.isspace_cp ws = true ->
  forall cur, Py.split_go (l ++ ws) cur = Py.split_go l cur.
Proof.
  intros Hb. induction l as [|c r IH]; intros cur.
  - cbn [app]. rewrite (split_go_blank ws Hb). reflexivity.
  - cbn [app Py.split_go]. rewrite !IH. reflexivity.
Qed.

Lemma split_go_leading (ws l : list N) :
  forallb Py.isspace_cp ws = true ->
  Py.split_go (ws ++ l) [] = Py.split_go l [].
Proof.
  induction ws as [|c r IH]; intros Hb; [reflexivity|].
  cbn [forallb] in Hb. apply andb_prop in Hb as [Hc Hr].
  cbn [app Py.split_go]. rewrite Hc. now apply IH.
Qed.

Lemma split_go_word (w l : list N) :
  forallb (fun c => negb (Py.isspace_cp c)) w = true ->
  forall cur, Py.split_go (w ++ l) cur = Py.split_go l (rev w ++ cur).
Proof.
  induction w as [|c r IH]; intros Hw cur; [reflexivity|].
  cbn [forallb] in Hw. apply andb_prop in Hw as [Hc Hr].
  apply negb_true_iff in Hc.
  cbn [app Py.split_go rev]. rewrite Hc, (IH Hr), <- app_assoc. reflexivity.
Qed.

Lemma lstrip_parts (l : list N) :
  exists ws, forallb Py.isspace_cp ws = true /\ l = ws ++ Py.lstrip l.
Proof.
  induction l as [|c r (ws & Hws & Hr)]; [now exists []|].
  cbn [Py.lstrip]. destruct (Py.isspace_cp c) eqn:Hc.
  - exists (c :: ws). cbn [forallb app]. rewrite Hc, Hws. split; [reflexivity|].
    now rewrite <- Hr.
  - now exists [].
Qed.

Lemma forallb_rev {A : Type} (f : A -> bool) (l : list A) :
  forallb f l = true -> forallb f (rev l) = true.
Proof.
  rewrite !forallb_forall. intros H x Hx. apply H. now apply in_rev.
Qed.

Lemma strip_cps_parts (l : list N) :
  exists ws1 ws2,
    forallb Py.isspace_cp ws1 = true /\ forallb Py.isspace_cp ws2 = true /\
    l = ws1 ++ Py.strip_cps l ++ ws2.
Proof.
  unfold Py.strip_cps.
  destruct (lstrip_parts l) as (ws1 & Hws1 & Hl).
  destruct (lstrip_parts (rev (Py.lstrip l))) as (ws2 & Hws2 & Hr).
  exists ws1, (rev ws2). split; [exact Hws1|]. split; [now apply forallb_rev|].
  rewrite <- rev_app_distr, <- Hr, rev_involutive. exact Hl.
Qed.

(** [strip] before [split] changes nothing. *)
Lemma split_strip (s : string) : Py.split (Py.strip s) = Py.split s.
Proof.
  unfold Py.split, Py.strip.
  destruct (strip_cps_parts (Py.decode s)) as (ws1 & ws2 & H1 & H2 & Hl).
  rewrite decode_encode.
  - rewrite Hl at 2.
    now rewrite (split_go_leading _ _ H1), (split_go_trailing _ _ H2).
  - pose proof (decode_bound s) as Hb. rewrite Hl in Hb.
    apply Forall_app in Hb as [_ Hb]. now apply Forall_app in Hb as [Hb _].
Qed.

Lemma parse_args_split (s : string) :
  parse_args s = match Py.split s with
                 | [] => (None, [])
                 | command :: args => (Some command, args)
                 end.
Proof. unfold parse_args. now rewrite split_strip. Qed.

Lemma split_go_nil (l : list N) :
  forall cur, Py.split_go l cur = [] ->
              cur = [] /\ forallb Py.isspace_cp l = true.
Proof.
  induction l as [|c r IH]; intros cur H; cbn [Py.split_go forallb] in *.
  - destruct cur; [auto | discriminate].
  - destruct (Py.isspace_cp c).
    + destruct cur; [|discriminate]. destruct (IH [] H). auto.
    + destruct (IH _ H) as [Hcur _]. discriminate.
Qed.

Lemma is_token_of_run (cur : list N) :
  cur <> [] ->
  forallb (fun c => negb (Py.isspace_cp c)) cur = true ->
  Props.is_token_cps (rev cur) = true.
Proof.
  intros Hne Hcur. unfold Props.is_token_cps.
  destruct (rev cur) eqn:E.
  - apply (f_equal (@rev N)) in E. rewrite rev_involutive in E.
    now destruct Hne.
  - rewrite <- E. now apply forallb_rev.
Qed.

(** The runs [split] yields are non-empty, hold no whitespace character,
    and are made of characters of the line. *)
Lemma split_go_tokens (P : N -> Prop) (l : list N) :
  forall cur,
    forallb (fun c => negb (Py.isspace_cp c)) cur = true ->
    Forall P l -> Forall P cur ->
    Forall (fun w => Props.is_token_cps w = true /\ Forall P w)
           (Py.split_go l cur).
Proof.
  assert (Hrun : forall cur,
             cur <> [] ->
             forallb (fun c => negb (Py.isspace_cp c)) cur = true ->
             Forall P cur ->
             Props.is_token_cps (rev cur) = true /\ Forall P (rev cur)).
  { intros cur Hne Hcur HP. split; [now apply is_token_of_run|].
    apply Forall_forall. intros x Hx. apply in_rev in Hx.
    revert x Hx. now apply Forall_forall. }
  induction l as [|c r IH]; intros cur Hcur Hl HP; cbn [Py.split_go].
  - destruct cur; constructor; [|constructor].
    now apply Hrun.
  - inversion Hl as [|? ? Hc Hr]; subst.
    destruct (Py.isspace_cp c) eqn:Hsp.
    + destruct cur; [now apply IH|].
      constructor; [now apply Hrun | now apply IH].
    + apply IH; [|exact Hr | now constructor].
      cbn [forallb]. now rewrite Hsp, Hcur.
Qed.

(** X6: the command word and the arguments that [parse_args] returns are
    never empty and hold no whitespace character; there is no command word
    (and then no argument) exactly when the line holds whitespace
    characters only. *)
Theorem parse_args_gives_tokens (input_string : string) :
  Forall (fun w => Props.is_token w = true) (snd (parse_args input_string)) /\
  match fst (parse_args input_string) with
  | Some command =>
      Props.is_token command = true /\
      Props.is_space_only input_string = false
  | None =>
      snd (parse_args input_string) = [] /\
      Props.is_space_only input_string = true
  end.
Proof.
  rewrite parse_args_split. unfold Py.split, Props.is_space_only.
  pose proof (split_go_tokens (fun c => (c < 2097152)%N)
                (Py.decode input_string) [] eq_refl
                (decode_bound input_string) (Forall_nil _)) as Htok.
  assert (Hall : Forall (fun w => Props.is_token w = true)
                        (map Py.encode
                             (Py.split_go (Py.decode input_string) []))).
  { apply Forall_forall. intros w Hw.
    apply in_map_iff in Hw as (run & <- & Hrun).
    rewrite Forall_forall in Htok. destruct (Htok run Hrun) as [Ht Hb].
    unfold Props.is_token. now rewrite decode_encode. }
  destruct (Py.split_go (Py.decode input_string) []) as [|w r] eqn:E.
  - cbn. repeat split; [constructor|]. now apply split_go_nil in E.
  - cbn [map fst snd] in *. inversion Hall; subst.
    repeat split; try assumption.
    destruct (forallb Py.isspace_cp (Py.decode input_string)) eqn:Hb;
      [|reflexivity].
    rewrite (split_go_blank _ Hb) in E. discriminate.
Qed.

Lemma split_go_more (more : list (list N * list N)) (trail : list N) :
  Forall (fun p => Props.is_gap_cps (fst p) = true /\
                   Props.is_token_cps (snd p) = true) more ->
  forallb Py.isspace_cp trail = true ->
  forall cur,
    cur <> [] ->
    Py.split_go (fold_right (fun p acc => fst p ++ snd p ++ acc) trail more)
                cur
    = rev cur :: map snd more.
Proof.
  intros Hmore Htrail.
  induction Hmore as [|[gap w] more [Hgap Hw] _ IH]; intros cur Hcur;
    cbn [fold_right map fst snd].
  - rewrite (split_go_blank _ Htrail). now destruct cur.
  - unfold Props.is_gap_cps, Props.is_token_cps in Hgap, Hw.
    cbn [fst snd] in Hgap, Hw.
    destruct gap as [|g gs]; [discriminate|].
    destruct w as [|c cs]; [discriminate|].
    cbn [forallb] in Hgap. apply andb_prop in Hgap as [Hg Hgs].
    cbn [app Py.split_go]. rewrite Hg.
    destruct cur as [|c0 cur']; [now destruct Hcur|].
    f_equal. rewrite (split_go_leading _ _ Hgs).
    change (c :: cs ++ ?x) with ((c :: cs) ++ x).
    rewrite (split_go_word _ _ Hw), app_nil_r.
    rewrite IH; [now rewrite rev_involutive|].
    intros H. apply (f_equal (@rev N)) in H.
    rewrite rev_involutive in H. discriminate.
Qed.

(** X7: a line made of tokens set apart by whitespace characters is split
    into just these tokens, whatever the whitespace (one-byte or not)
    between them, before the first and after the last: the first token is
    the command word, the others are the arguments. *)
Theorem parse_args_of_spaced_line (lead first trail : list N)
        (more : list (list N * list N)) :
  Props.is_str (Props.spaced_cps lead first more trail) = true ->
  forallb Py.isspace_cp lead = true ->
  Props.is_token_cps first = true ->
  Forall (fun p => Props.is_gap_cps (fst p) = true /\
                   Props.is_token_cps (snd p) = true) more ->
  forallb Py.isspace_cp trail = true ->
  parse_args (Py.encode (Props.spaced_cps lead first more trail))
  = (Some (Py.encode first), map (fun p => Py.encode (snd p)) more).
Proof.
  intros Hstr Hlead Hfirst Hmore Htrail.
  rewrite parse_args_split. unfold Py.split.
  rewrite decode_encode.
  2:{ unfold Props.is_str in Hstr. rewrite forallb_forall in Hstr.
      apply Forall_forall. intros c Hc. specialize (Hstr c Hc).
      apply orb_prop in Hstr as [H|H].
      - apply N.ltb_lt in H. lia.
      - apply andb_prop in H as [_ H]. apply N.ltb_lt in H. lia. }
  unfold Props.spaced_cps. rewrite (split_go_leading _ _ Hlead).
  unfold Props.is_token_cps in Hfirst.
  destruct first as [|c cs]; [discriminate|].
  rewrite (split_go_word _ _ Hfirst), app_nil_r.
  rewrite (split_go_more more trail Hmore Htrail).
  - cbn [map]. now rewrite rev_involutive, map_map.
  - intros H. apply (f_equal (@rev N)) in H.
    rewrite rev_involutive in H. discriminate.
Qed.

End Split.

(* ===================================================================== *)
(** ** The dispatcher and the loop on any line *)
(* ===================================================================== *)

Section Loop.

Variable cmds : list ICommandStrategy.

Lemma scan_no_match (command : option string) (args : list string)
      (st : State) :
  (forall p, In p cmds ->
             CLI.is_in command (get_command_selectors p) = false) ->
  CLI.scan cmds command args st
  = (Ok true,
     Spec.printed st ("Невідома команда: " ++ CLI.str_command command)).
Proof.
  intros H. rewrite <- (app_nil_r cmds), scan_skips by exact H.
  cbn [CLI.scan]. run_cmd. reflexivity.
Qed.

(** X8: a line whose word is neither [exit] nor [quit] and is declared by
    no registered command runs no command: the dispatcher prints the
    unknown-command line with the word, returns True, and leaves the rest
    of the state as it was. *)
Theorem unknown_command_is_reported (input_string : string) (st : State) :
  CLI.is_in (fst (parse_args input_string)) ["exit"; "quit"]%string = false ->
  (forall p, In p cmds ->
             CLI.is_in (fst (parse_args input_string))
                       (get_command_selectors p) = false) ->
  CLI.exec_command cmds input_string st
  = (Ok true,
     Spec.printed st ("Невідома команда: " ++
                      CLI.str_command (fst (parse_args input_string)))).
Proof.
  intros Hexit Hnone. unfold CLI.exec_command.
  destruct (parse_args input_string) as [command args]. cbn [fst] in *.
  rewrite Hexit. now apply scan_no_match.
Qed.


(** X10: the words [exit] and [quit] are answered before the registry is
    looked at: the dispatcher returns False with the state untouched,
    whatever is registered, and the loop prints the farewell and is left,
    with the remaining lines unread. *)
Theorem exit_and_quit_leave_the_loop (st : State) (line word : string)
        (args rest : list string) (turns : nat) :
  stdin st = line :: rest ->
  parse_args line = (Some word, args) ->
  word = "exit"%string \/ word = "quit"%string ->
  (forall st0, CLI.exec_command cmds line st0 = (Ok false, st0)) /\
  CLI.run_loop cmds (S turns) st
  = (true,
     mkState (characters st) (file st) rest
             (console st ++
              [Prompted (Py.nl ++ "> ")%string; Printed "До побачення!"])
             (requests st)).
Proof.
  intros Hin Hparse Hword.
  assert (Hexec : forall st0, CLI.exec_command cmds line st0 = (Ok false, st0)).
  { intros st0. unfold CLI.exec_command. rewrite Hparse.
    destruct Hword as [-> | ->]; reflexivity. }
  split; [exact Hexec|].
  cbn [CLI.run_loop]. unfold CLI.run_turn. run_cmd. rewrite Hin, Hexec.
  run_cmd. now rewrite <- app_assoc.
Qed.



(** X12: once the input is exhausted the loop does not stop: every turn
    prints the prompt and the EOF error line and goes on, with the Records
    and the file untouched. *)
Theorem loop_spins_at_end_of_input (turns : nat) (st : State) :
  stdin st = [] ->
  CLI.run_loop cmds turns st
  = (false,
     mkState (characters st) (file st) []
             (console st ++ Props.eof_turns turns) (requests st)).
Proof.
  revert st. induction turns as [|n IH]; intros st Hin.
  - cbn. rewrite app_nil_r, <- Hin. now destruct st.
  - cbn [CLI.run_loop]. unfold CLI.run_turn at 1. run_cmd. rewrite Hin.
    run_cmd. rewrite IH by reflexivity.
    cbn [characters file stdin console requests Props.eof_turns].
    unfold Props.eof_turn. now rewrite <- !app_assoc.
Qed.

End Loop.

(* ===================================================================== *)
(** ** The store only grows *)
(* ===================================================================== *)

Section Growth.

Lemma extends_same (st st' : State) :
  characters st' = characters st -> file st' = file st ->
  Props.extends st st'.
Proof.
  intros Hc Hf. exists []. rewrite app_nil_r.
  split; [exact Hc|]. split; [intros _; exact Hf | intros H; now destruct H].
Qed.

Lemma extends_refl (st : State) : Props.extends st st.
Proof. now apply extends_same. Qed.

Lemma extends_trans (st st1 st2 : State) :
  Props.extends st st1 -> Props.extends st1 st2 -> Props.extends st st2.
Proof.
  intros (n1 & Hc1 & He1 & Hn1) (n2 & Hc2 & He2 & Hn2).
  exists (n1 ++ n2). split; [now rewrite Hc2, Hc1, app_assoc|]. split.
  - intros H. apply app_eq_nil in H as [-> ->].
    now rewrite He2, He1.
  - intros H. destruct n2 as [|c n2].
    + rewrite app_nil_r in H, Hc2. rewrite He2, Hc2 by reflexivity.
      now apply Hn1.
    + now apply Hn2.
Qed.

Lemma keeps_ret {A : Type} (a : A) : Props.keeps (ret a).
Proof. intros st. apply extends_refl. Qed.

Lemma keeps_raise {A : Type} (e : exn) : Props.keeps (@raise A e).
Proof. intros st. apply extends_refl. Qed.

Lemma keeps_print (s : string) : Props.keeps (print s).
Proof. intros st. now apply extends_same. Qed.

Lemma keeps_input (prompt : string) : Props.keeps (input prompt).
Proof.
  intros st. unfold input. destruct (stdin st); now apply extends_same.
Qed.

Lemma keeps_int (s : string) : Props.keeps (int s).
Proof.
  unfold int. destruct (Py.int s); [apply keeps_ret | apply keeps_raise].
Qed.

Lemma keeps_get_all : Props.keeps get_all.
Proof. intros st. apply extends_refl. Qed.

Lemma keeps_get_by_id (char_id : Z) : Props.keeps (get_by_id char_id).
Proof. intros st. apply extends_refl. Qed.

Lemma keeps_add_character (c : Character) : Props.keeps (add_character c).
Proof.
  intros st. exists [c]. run_cmd. repeat split. intros H. discriminate.
Qed.

Lemma keeps_fetch_details (api_client : GenshinAPIClient) (name : string) :
  Props.keeps (ImportCommand.fetch_details api_client name).
Proof. intros st. apply extends_same; reflexivity. Qed.

Lemma keeps_bind {A B : Type} (m : M A) (k : A -> M B) :
  Props.keeps m -> (forall a, Props.keeps (k a)) -> Props.keeps (bind m k).
Proof.
  intros Hm Hk st. unfold bind. specialize (Hm st).
  destruct (m st) as [[a|e] st1]; cbn [snd] in *; [|exact Hm].
  exact (extends_trans _ _ _ Hm (Hk a st1)).
Qed.

Lemma keeps_try_except {A : Type} (m h : M A) :
  Props.keeps m -> Props.keeps h -> Props.keeps (try_except m h).
Proof.
  intros Hm Hh st. unfold try_except. specialize (Hm st).
  destruct (m st) as [[a|e] st1]; cbn [snd] in *; [exact Hm|].
  exact (extends_trans _ _ _ Hm (Hh st1)).
Qed.

(** Steps through a command built from the operations above. *)
Ltac keeps_step :=
  first [ apply keeps_ret | apply keeps_raise | apply keeps_print
        | apply keeps_input | apply keeps_int | apply keeps_get_all
        | apply keeps_get_by_id | apply keeps_add_character
        | apply keeps_try_except
        | apply keeps_bind; [|intros ?] ].

Lemma list_keeps : Props.strategy_keeps ListCommand.strategy.
Proof.
  intros command args. cbn [exec_command ListCommand.strategy].
  unfold ListCommand.exec_command, render.
  apply keeps_bind; [apply keeps_get_all|]. intros chars.
  assert (Hall : forall l, Props.keeps (ListCommand.render_all l)).
  { induction l as [|c r IH]; cbn [ListCommand.render_all]; unfold render;
      repeat keeps_step. exact IH. }
  destruct chars; repeat keeps_step. apply Hall.
Qed.

Lemma add_keeps : Props.strategy_keeps AddCommand.strategy.
Proof.
  intros command args. cbn [exec_command AddCommand.strategy].
  unfold AddCommand.exec_command, render. repeat keeps_step.
Qed.

Lemma show_keeps : Props.strategy_keeps ShowCommand.strategy.
Proof.
  intros command args. cbn [exec_command ShowCommand.strategy].
  unfold ShowCommand.exec_command, render.
  destruct args as [|arg0 args']; [apply keeps_print|].
  apply keeps_bind; [apply keeps_int | intros char_id].
  apply keeps_bind; [apply keeps_get_by_id | intros found].
  destruct found as [char|]; repeat keeps_step.
  destruct (String.eqb (image_url char) ""); repeat keeps_step.
Qed.

Lemma help_keeps : Props.strategy_keeps HelpCommand.strategy.
Proof. intros command args. apply keeps_print. Qed.

Lemma import_keeps (api_client : GenshinAPIClient) :
  Props.strategy_keeps (ImportCommand.strategy api_client).
Proof.
  intros command args. cbn [exec_command ImportCommand.strategy].
  unfold ImportCommand.exec_command, ImportCommand.choose_count, render.
  assert (Hloop : forall count base items imported,
             Props.keeps (ImportCommand.import_loop api_client count base
                                                    items imported)).
  { intros count base items. induction items as [|[i name] rest IH];
      intros imported; cbn [ImportCommand.import_loop]; [apply keeps_ret|].
    apply keeps_bind; [|intros k; apply IH].
    unfold ImportCommand.import_item, render.
    apply keeps_bind; [apply keeps_print | intros _].
    apply keeps_bind; [apply keeps_fetch_details | intros details].
    destruct details; repeat keeps_step. }
  destruct (get_all_character_names api_client); repeat keeps_step.
  apply Hloop.
Qed.

Lemma scan_keeps (cmds : list ICommandStrategy) (command : option string)
      (args : list string) :
  Forall Props.strategy_keeps cmds ->
  Props.keeps (CLI.scan cmds command args).
Proof.
  induction 1 as [|c r Hc _ IH]; cbn [CLI.scan]; unfold render.
  - repeat keeps_step.
  - destruct (CLI.is_in command (get_command_selectors c)); [|exact IH].
    apply keeps_bind; [apply Hc | intros; apply keeps_ret].
Qed.

Lemma run_turn_keeps (cmds : list ICommandStrategy) (st : State) :
  Forall Props.strategy_keeps cmds ->
  Props.extends st (snd (CLI.run_turn cmds st)).
Proof.
  intros Hall. unfold CLI.run_turn.
  assert (Hk : Props.keeps (bind (input (Py.nl ++ "> "))
                                 (fun user_input =>
                                    CLI.exec_command cmds user_input))).
  { apply keeps_bind; [apply keeps_input|]. intros line.
    unfold CLI.exec_command. destruct (parse_args line) as [command args].
    destruct (CLI.is_in command ["exit"; "quit"]%string);
      [apply keeps_ret | now apply scan_keeps]. }
  specialize (Hk st).
  destruct (bind (input (Py.nl ++ "> "))
                 (fun user_input => CLI.exec_command cmds user_input) st)
    as [[[|]|e] st1]; [exact Hk | | destruct e]; cbn [snd] in *;
    (eapply extends_trans; [exact Hk | now apply extends_same]).
Qed.

Lemma run_loop_keeps (cmds : list ICommandStrategy) (turns : nat) :
  Forall Props.strategy_keeps cmds ->
  forall st, Props.extends st (snd (CLI.run_loop cmds turns st)).
Proof.
  intros Hall. induction turns as [|n IH]; intros st; cbn [CLI.run_loop].
  - apply extends_refl.
  - pose proof (run_turn_keeps cmds st Hall) as Ht.
    destruct (CLI.run_turn cmds st) as [[|] st1]; cbn [snd] in *;
      [|exact Ht].
    exact (extends_trans _ _ _ Ht (IH st1)).
Qed.

(** X13: in a session of any length, on any input and with any answers of
    the API, no Record is ever removed, changed or moved: the Records at the
    start stay at the front of the list and new ones come after them.  The
    file is left alone as long as no Record is added, and once one is added
    it holds the dump of the whole list. *)
Theorem session_only_appends (api_client : GenshinAPIClient) (turns : nat)
        (st : State) :
  let st' := snd (CLI.run (CLI.commands api_client) turns st) in
  exists new : list Character,
    characters st' = characters st ++ new /\
    (new = [] -> file st' = file st) /\
    (new <> [] -> file st' = Some (JArr (map to_dict (characters st')))).
Proof.
  cbv zeta. unfold CLI.run.
  assert (Hall : Forall Props.strategy_keeps (CLI.commands api_client)).
  { repeat constructor;
      [apply list_keeps | apply add_keeps | apply show_keeps
      | apply help_keeps | apply import_keeps]. }
  assert (Hd : Props.keeps CLI.display).
  { unfold CLI.display. repeat keeps_step. }
  exact (extends_trans _ _ _ (Hd st)
           (run_loop_keeps _ turns Hall (snd (CLI.display st)))).
Qed.

End Growth.

(* ===================================================================== *)
(** ** Ids: distinctness and lookup *)
(* ===================================================================== *)

Section Ids.

Lemma fold_left_max_ge (r : list Z) :
  forall x, x <= fold_left Z.max r x /\
            forall y, In y r -> y <= fold_left Z.max r x.
Proof.
  induction r as [|z r IH]; intros x; cbn [fold_left].
  - split; [lia | intros y []].
  - destruct (IH (Z.max x z)) as [H1 H2]. split; [lia|].
    intros y [<-|Hy]; [lia | now apply H2].
Qed.

Lemma max_default_ge (l : list Z) (d x : Z) :
  In x l -> x <= Py.max_default l d.
Proof.
  destruct l as [|z r]; [intros []|]. cbn [Py.max_default].
  destruct (fold_left_max_ge r z) as [H1 H2].
  intros [<-|Hx]; [exact H1 | now apply H2].
Qed.

Variable api_client : GenshinAPIClient.

Lemma fetched_records_above (base : Z) (l : list string) :
  forall i c,
    In c (Spec.fetched_records api_client base (Py.enumerate_from i l)) ->
    base + i < id c.
Proof.
  induction l as [|name r IH]; intros i c Hin; [destruct Hin|].
  cbn [Py.enumerate_from Spec.fetched_records flat_map fst snd] in Hin.
  apply in_app_or in Hin as [Hin|Hin].
  - destruct (get_character_details api_client name); [|destruct Hin].
    destruct Hin as [<-|[]]. cbn. lia.
  - apply IH in Hin. lia.
Qed.

Lemma fetched_records_nodup (base : Z) (l : list string) :
  forall i,
    NoDup (map id (Spec.fetched_records api_client base
                                        (Py.enumerate_from i l))).
Proof.
  induction l as [|name r IH]; intros i; [constructor|].
  cbn [Py.enumerate_from Spec.fetched_records flat_map fst snd].
  fold (Spec.fetched_records api_client base (Py.enumerate_from (i + 1) r)).
  destruct (get_character_details api_client name) as [d|];
    cbn [app map]; [|apply IH].
  constructor; [|apply IH].
  intros Hin. apply in_map_iff in Hin as (c & Hid & Hc).
  apply fetched_records_above in Hc. cbn in Hid. lia.
Qed.

(** X14: an import gives every Record it adds an id greater than every id
    the store held before, and no id twice; so if the ids of the store were
    distinct before the import, they are distinct after it. *)
Theorem import_keeps_ids_distinct (command : option string)
        (args : list string) (st : State) :
  let st' := snd (ImportCommand.exec_command api_client command args st) in
  (forall c old, In c (Spec.new_records st st') ->
                 In old (characters st) -> id old < id c) /\
  NoDup (map id (Spec.new_records st st')) /\
  (NoDup (map id (characters st)) -> NoDup (map id (characters st'))).
Proof.
  cbv zeta.
  destruct (import_effect api_client command args st) as [Hc _].
  rewrite (new_records_app _ _ _ Hc), Hc. unfold Py.enumerate.
  assert (Hfresh : forall c old,
             In c (Spec.fetched_records api_client
                     (Py.max_default (map id (characters st)) 0)
                     (Py.enumerate_from 0
                        (Py.slice_to (get_all_character_names api_client)
                           (Spec.chosen_count
                              (get_all_character_names api_client)
                              (stdin st))))) ->
             In old (characters st) -> id old < id c).
  { intros c old Hin Hold. apply fetched_records_above in Hin.
    pose proof (max_default_ge (map id (characters st)) 0 (id old)
                  (in_map id _ _ Hold)). lia. }
  split; [exact Hfresh|]. split; [apply fetched_records_nodup|].
  intros Hnd. rewrite map_app. apply NoDup_app;
    [exact Hnd | apply fetched_records_nodup|].
  intros k Hk1 Hk2.
  apply in_map_iff in Hk1 as (old & <- & Hold).
  apply in_map_iff in Hk2 as (c & Hid & Hin).
  specialize (Hfresh c old Hin Hold). lia.
Qed.

(** X15: whenever the ids of the store are distinct, every Record of the
    store is what [get_by_id] returns for its id. *)
Theorem distinct_ids_are_retrievable (chars : list Character) (c : Character) :
  NoDup (map id chars) ->
  In c chars ->
  find_by_id chars (id c) = Some c.
Proof.
  induction chars as [|x r IH]; intros Hnd Hin; [destruct Hin|].
  cbn [map] in Hnd. apply NoDup_cons_iff in Hnd as [Hx Hr].
  cbn [find_by_id]. destruct Hin as [->|Hin].
  - now rewrite Z.eqb_refl.
  - destruct (Z.eqb_spec (id x) (id c)) as [E|_]; [|now apply IH].
    exfalso. apply Hx. rewrite E. now apply in_map.
Qed.

Lemma nodup_map_of_nat (l : list nat) :
  NoDup l -> NoDup (map Z.of_nat l).
Proof.
  induction 1 as [|x l Hx _ IH]; cbn [map]; constructor; [|exact IH].
  intros Hin. apply in_map_iff in Hin as (y & Hy & Hin).
  apply Nat2Z.inj in Hy. now subst.
Qed.

Lemma dense_nodup (chars : list Character) :
  Props.dense chars -> NoDup (map id chars).
Proof.
  unfold Props.dense. intros ->. apply nodup_map_of_nat, seq_NoDup.
Qed.

Lemma seq_offset (m : nat) :
  forall s n : nat,
    map Z.of_nat (seq (s + n) m)
    = map (fun k => Z.of_nat n + Z.of_nat k) (seq s m).
Proof.
  induction m as [|m IH]; intros s n; [reflexivity|].
  cbn [seq map]. f_equal; [lia|]. apply (IH (S s) n).
Qed.

(** X16: when the ids of the store are 1, 2, ..., n in order, they are
    still 1, 2, ... in order after any number of Adds on valid input, and
    every Record, old or new, is what [get_by_id] returns for its id. *)
Theorem adds_keep_dense_ids (st : State) (ins : list Spec.AddInput)
        (rest : list string) :
  forallb Spec.valid_add ins = true ->
  stdin st = flat_map Spec.add_lines ins ++ rest ->
  Props.dense (characters st) ->
  let st' := snd (Spec.add_many (length ins) st) in
  Props.dense (characters st') /\
  forall c, In c (characters st') ->
            find_by_id (characters st') (id c) = Some c.
Proof.
  intros Hv Hin Hd. cbv zeta.
  destruct (add_many_run ins st rest Hv Hin) as (_ & Hc & _).
  assert (Hd' : Props.dense (characters (snd (Spec.add_many (length ins) st)))).
  { rewrite Hc. unfold Props.dense in *.
    rewrite map_app, Hd, added_records_ids, length_app, added_records_length.
    rewrite seq_app, map_app. f_equal.
    unfold Py.len. symmetry. apply seq_offset. }
  split; [exact Hd'|].
  intros c Hc_in. apply distinct_ids_are_retrievable; [|exact Hc_in].
  now apply dense_nodup.
Qed.

End Ids.

(* ===================================================================== *)
(** ** Import: outcome and edge counts *)
(* ===================================================================== *)

Section ImportEdges.

Variable api_client : GenshinAPIClient.

(** X17: the Import command reads no input line when the listing is
    empty, and otherwise exactly one line, the answer to the count prompt,
    when there is one; the loop over the batch reads none, whatever the
    answers of the API.  At the end of the input the count prompt leaves
    the input empty and the run goes on. *)
Theorem import_reads_one_line (command : option string) (args : list string)
        (st : State) :
  stdin (snd (ImportCommand.exec_command api_client command args st))
  = match get_all_character_names api_client with
    | [] => stdin st
    | _ => tl (stdin st)
    end.
Proof.
  destruct (get_all_character_names api_client) as [|n0 names'] eqn:En.
  - rewrite import_run_empty by exact En. reflexivity.
  - rewrite import_run by congruence. reflexivity.
Qed.

(** X18: when the count read is 0, or a negative int that cuts off all
    names, the batch is empty: no detail is requested, no Record is added,
    the file is not written, and the count printed at the end is 0. *)
Theorem import_of_empty_batch (command : option string) (args : list string)
        (st : State) (line : string) (rest : list string) (c : Z) :
  let names := get_all_character_names api_client in
  names <> [] ->
  stdin st = line :: rest ->
  Py.int line = Some c ->
  c = 0 \/ c <= - Py.len names ->
  ImportCommand.exec_command api_client command args st
  = (Ok tt,
     mkState (characters st) (file st) rest
             (console st ++ Spec.import_prologue names c ++
              [Spec.import_epilogue 0])
             (requests st)).
Proof.
  cbv zeta. intros Hne Hin Hint Hc.
  assert (Hcount : Spec.chosen_count (get_all_character_names api_client)
                                     (stdin st) = c).
  { unfold Spec.chosen_count. rewrite Hin, Hint. unfold Py.len in *. lia. }
  assert (Hslice : Py.slice_to (get_all_character_names api_client) c = []).
  { unfold Py.slice_to, Py.len in *. destruct (c <? 0) eqn:E.
    - replace (Z.to_nat _) with 0%nat by lia. reflexivity.
    - apply Z.ltb_ge in E. replace (Z.to_nat c) with 0%nat by lia.
      reflexivity. }
  rewrite (import_run api_client command args st Hne), Hcount, Hslice, Hin.
  cbn [Py.enumerate Py.enumerate_from Spec.fetched_records flat_map
       Spec.file_after Spec.progress_lines map tl app].
  now rewrite !app_nil_r.
Qed.

(** X19: when the line read is no int, the count is 5 whatever the number
    of names: the batch is the first five names, or all of them when fewer
    exist, and the progress lines still show 5 as their denominator. *)
Theorem import_default_count_is_shown (command : option string)
        (args : list string) (st : State) (line : string)
        (rest : list string) :
  let names := get_all_character_names api_client in
  let st' := snd (ImportCommand.exec_command api_client command args st) in
  names <> [] ->
  stdin st = line :: rest ->
  Py.int line = None ->
  requests st' = requests st ++ firstn 5 names /\
  (Py.len names <= 5 -> firstn 5 names = names) /\
  exists imported : Z,
    console st' =
      console st ++ Spec.import_prologue names 5 ++
      map (fun p => Printed ("[" ++ Py.str_of_int (fst p + 1) ++
                             "/5] Завантаження " ++ snd p ++ "...")%string)
          (Py.enumerate (firstn 5 names)) ++
      [Spec.import_epilogue imported].
Proof.
  cbv zeta. intros Hne Hin Hint.
  assert (Hcount : Spec.chosen_count (get_all_character_names api_client)
                                     (stdin st) = 5).
  { unfold Spec.chosen_count. now rewrite Hin, Hint. }
  rewrite (import_run api_client command args st Hne), Hcount.
  cbn [snd requests console]. rewrite enumerate_snd.
  change (Py.slice_to (get_all_character_names api_client) 5)
    with (firstn 5 (get_all_character_names api_client)).
  split; [reflexivity|]. split.
  - intros Hle. apply firstn_all2. unfold Py.len in Hle. lia.
  - eexists. reflexivity.
Qed.

End ImportEdges.

(* ===================================================================== *)
(** ** Files that load accepts and rejects *)
(* ===================================================================== *)

Section Loading.

Lemma load_items_init_dict (cs : list Character) :
  load_items (map Props.init_dict cs) = Loaded cs.
Proof.
  induction cs as [|c r IH]; [reflexivity|].
  cbn [map load_items]. unfold Props.init_dict at 1.
  rewrite kwargs_with_char_type, IH. reflexivity.
Qed.

Lemma load_items_init_dict_no_url (cs : list Character) :
  load_items (map Props.init_dict_no_url cs)
  = Loaded (map (fun c => mkCharacter (id c) (name c) (type c) (health c)
                                      (attack c) "") cs).
Proof.
  induction cs as [|c r IH]; [reflexivity|].
  cbn [map load_items]. rewrite IH. reflexivity.
Qed.

(** X20: [load] gives an empty list when there is no file, and reads back,
    in order, an array of objects keyed by the parameter names of
    [__init__] ([char_type], not [type]); an object without [image_url]
    gives a Record whose image URL is empty. *)
Theorem load_reads_init_keyed_objects (cs : list Character) :
  load None = Loaded [] /\
  load (Some (JArr (map Props.init_dict cs))) = Loaded cs /\
  load (Some (JArr (map Props.init_dict_no_url cs)))
  = Loaded (map (fun c => mkCharacter (id c) (name c) (type c) (health c)
                                      (attack c) "") cs).
Proof.
  split; [reflexivity|]. split; cbn [load iter_json];
    [apply load_items_init_dict | apply load_items_init_dict_no_url].
Qed.

Lemma existsb_eqb_in (k : string) (l : list string) :
  existsb (String.eqb k) l = true <-> In k l.
Proof.
  rewrite existsb_exists. split.
  - intros (x & Hx & E). apply String.eqb_eq in E. now subst.
  - intros H. exists k. split; [exact H | apply String.eqb_refl].
Qed.

Lemma kw_lookup_some (k : string) (kw : list (string * json)) (v : json) :
  kw_lookup k kw = Some v -> In k (map fst kw).
Proof.
  unfold kw_lookup. destruct (find _ kw) as [[k' v']|] eqn:E; [|discriminate].
  intros _. apply find_some in E as [Hin Heq]. cbn in Heq.
  apply String.eqb_eq in Heq. subst. now apply (in_map fst) in Hin.
Qed.

Lemma kwargs_rejects (kw : list (string * json)) :
  (exists k, In k (map fst kw) /\ ~ In k init_params) \/
  (exists k, In k Props.required_params /\ ~ In k (map fst kw)) ->
  Character_kwargs (JObj kw) = InitTypeError.
Proof.
  intros H. cbn [Character_kwargs].
  destruct (forallb _ kw) eqn:Hall; cbn [negb]; [|reflexivity].
  destruct H as [(k & Hk & Hnot) | (k & Hk & Hmiss)].
  - exfalso. apply in_map_iff in Hk as (p & <- & Hp).
    rewrite forallb_forall in Hall. specialize (Hall p Hp).
    now apply existsb_eqb_in in Hall.
  - destruct (kw_lookup "id" kw) eqn:E1; [|reflexivity].
    destruct (kw_lookup "name" kw) eqn:E2; [|reflexivity].
    destruct (kw_lookup "char_type" kw) eqn:E3; [|reflexivity].
    destruct (kw_lookup "health" kw) eqn:E4; [|reflexivity].
    destruct (kw_lookup "attack" kw) eqn:E5; [|reflexivity].
    exfalso. apply Hmiss.
    destruct Hk as [<-|[<-|[<-|[<-|[<-|[]]]]]];
      eauto using kw_lookup_some.
Qed.

Lemma load_items_type_error (items : list json) (j : json) :
  In j items -> Character_kwargs j = InitTypeError ->
  load_items items = LoadTypeError.
Proof.
  induction items as [|x r IH]; intros Hin Hj; [destruct Hin|].
  cbn [load_items]. destruct Hin as [->|Hin].
  - now rewrite Hj.
  - rewrite (IH Hin Hj). now destruct (Character_kwargs x).
Qed.

(** X21: [load] is all or nothing: if any object of the array, wherever it
    stands, has a key that is no parameter of [__init__] or lacks one of
    the five required ones, or if any item is no object at all, the call
    raises TypeError and no Record is loaded. *)
Theorem load_rejects_bad_item (items : list json) (j : json) :
  In j items ->
  match j with
  | JObj kw =>
      (exists k, In k (map fst kw) /\ ~ In k init_params) \/
      (exists k, In k Props.required_params /\ ~ In k (map fst kw))
  | _ => True
  end ->
  load (Some (JArr items)) = LoadTypeError.
Proof.
  intros Hin Hbad. cbn [load iter_json].
  apply (load_items_type_error items j Hin).
  destruct j; try reflexivity. now apply kwargs_rejects.
Qed.

End Loading.

(* ===================================================================== *)
(** ** Concrete runs of the further properties *)
(* ===================================================================== *)

Lemma show_prints_found_record_witness :
  let st := Sample.fresh [Sample.amber; Props.keqing] [] in
  Py.int "2" = Some 2 /\
  find_by_id (characters st) 2 = Some Props.keqing /\
  ShowCommand.exec_command (Some "show"%string) ["2"; "please"]%string st
  = (Ok tt,
     mkState [Sample.amber; Props.keqing] None []
       [ Printed (Py.nl ++ "=== Keqing ===")%string;
         Printed "ID: 2"; Printed "Тип: Electro";
         Printed "Здоров'я: 85"; Printed "Атака: 13";
         Printed "Зображення: k.png" ]
       []).
Proof.
  cbv zeta.
  assert (Hint : Py.int "2" = Some 2) by reflexivity.
  assert (Hfind : find_by_id
                    (characters (Sample.fresh [Sample.amber; Props.keqing] []))
                    2 = Some Props.keqing) by reflexivity.
  split; [exact Hint|]. split; [exact Hfind|].
  exact (show_prints_found_record (Some "show"%string) "2" ["please"%string]
           (Sample.fresh [Sample.amber; Props.keqing] []) 2 Props.keqing
           Hint Hfind).
Defined.

Lemma add_raises_before_saving_witness :
  let st := Sample.fresh [Sample.amber]
              ["Noelle"; "Geo"; "ninety"; "8"; ""]%string in
  stdin st = "Noelle"%string :: "Geo"%string :: "ninety"%string
             :: ["8"; ""]%string /\
  Py.int "ninety" = None /\
  AddCommand.exec_command (Some "add"%string) [] st
  = (Raise (ValueError "ninety"),
     mkState [Sample.amber] None ["8"; ""]%string
       [ Printed "=== Створення персонажа ===";
         Prompted "Ім'я: ";
         Prompted "Тип (воїн/маг/лучник): ";
         Prompted "Здоров'я: " ]
       []).
Proof.
  cbv zeta.
  assert (Hin : stdin (Sample.fresh [Sample.amber]
                         ["Noelle"; "Geo"; "ninety"; "8"; ""]%string)
                = "Noelle"%string :: "Geo"%string :: "ninety"%string
                  :: ["8"; ""]%string) by reflexivity.
  assert (Hbad : Py.int "ninety" = None) by reflexivity.
  split; [exact Hin|]. split; [exact Hbad|].
  exact (proj1 (add_raises_before_saving (Some "add"%string) []
                  (Sample.fresh [Sample.amber]
                     ["Noelle"; "Geo"; "ninety"; "8"; ""]%string))
               "Noelle"%string "Geo"%string "ninety"%string
               ["8"; ""]%string Hin Hbad).
Defined.

Lemma parse_args_of_spaced_line_witness :
  let nbsp := 160%N in
  let em_space := 8195%N in
  let lead := [32%N; nbsp] in
  let first := Py.decode "show" in
  let more := [([nbsp], Py.decode "12"); ([9%N; em_space], Py.decode "x")] in
  let trail := [12288%N] in
  Props.is_str (Props.spaced_cps lead first more trail) = true /\
  forallb Py.isspace_cp lead = true /\
  Props.is_token_cps first = true /\
  Forall (fun p => Props.is_gap_cps (fst p) = true /\
                   Props.is_token_cps (snd p) = true) more /\
  forallb Py.isspace_cp trail = true /\
  parse_args (Py.encode (Props.spaced_cps lead first more trail))
  = (Some "show"%string, ["12"; "x"]%string).
Proof.
  cbv zeta.
  assert (Hstr : Props.is_str
                   (Props.spaced_cps [32%N; 160%N] (Py.decode "show")
                      [([160%N], Py.decode "12");
                       ([9%N; 8195%N], Py.decode "x")] [12288%N]) = true)
    by reflexivity.
  assert (Hlead : forallb Py.isspace_cp [32%N; 160%N] = true) by reflexivity.
  assert (Hfirst : Props.is_token_cps (Py.decode "show") = true)
    by reflexivity.
  assert (Hmore : Forall (fun p => Props.is_gap_cps (fst p) = true /\
                                   Props.is_token_cps (snd p) = true)
                         [([160%N], Py.decode "12");
                          ([9%N; 8195%N], Py.decode "x")]).
  { repeat constructor. }
  assert (Htrail : forallb Py.isspace_cp [12288%N] = true) by reflexivity.
  split; [exact Hstr|]. split; [exact Hlead|]. split; [exact Hfirst|].
  split; [exact Hmore|]. split; [exact Htrail|].
  exact (parse_args_of_spaced_line [32%N; 160%N] (Py.decode "show")
           [12288%N]
           [([160%N], Py.decode "12"); ([9%N; 8195%N], Py.decode "x")]
           Hstr Hlead Hfirst Hmore Htrail).
Defined.

Lemma unknown_command_is_reported_witness :
  let st := Sample.fresh [Sample.amber] [] in
  CLI.is_in (fst (parse_args "dance now")) ["exit"; "quit"]%string = false /\
  CLI.exec_command (CLI.commands Sample.client) "dance now" st
  = (Ok true, Spec.printed st "Невідома команда: dance").
Proof.
  cbv zeta.
  assert (Hexit : CLI.is_in (fst (parse_args "dance now"))
                            ["exit"; "quit"]%string = false) by reflexivity.
  assert (Hnone : forall p, In p (CLI.commands Sample.client) ->
                    CLI.is_in (fst (parse_args "dance now"))
                              (get_command_selectors p) = false).
  { intros p [<-|[<-|[<-|[<-|[<-|[]]]]]]; reflexivity. }
  split; [exact Hexit|].
  exact (unknown_command_is_reported (CLI.commands Sample.client) "dance now"
           (Sample.fresh [Sample.amber] []) Hexit Hnone).
Defined.


Lemma exit_and_quit_leave_the_loop_witness :
  let st := Sample.fresh [Sample.amber] ["quit now"; "list"]%string in
  stdin st = "quit now"%string :: ["list"%string] /\
  parse_args "quit now" = (Some "quit"%string, ["now"%string]) /\
  CLI.run_loop [Sample.leave] 3 st
  = (true,
     mkState [Sample.amber] None ["list"%string]
       [Prompted (Py.nl ++ "> ")%string; Printed "До побачення!"] []).
Proof.
  cbv zeta.
  assert (Hin : stdin (Sample.fresh [Sample.amber]
                         ["quit now"; "list"]%string)
                = "quit now"%string :: ["list"%string]) by reflexivity.
  assert (Hparse : parse_args "quit now"
                   = (Some "quit"%string, ["now"%string])) by reflexivity.
  split; [exact Hin|]. split; [exact Hparse|].
  exact (proj2 (exit_and_quit_leave_the_loop [Sample.leave]
                  (Sample.fresh [Sample.amber] ["quit now"; "list"]%string)
                  "quit now" "quit" ["now"%string] ["list"%string] 2
                  Hin Hparse (or_intror eq_refl))).
Defined.


Lemma loop_spins_at_end_of_input_witness :
  let st := Sample.fresh [Sample.amber] [] in
  stdin st = [] /\
  CLI.run_loop (CLI.commands Sample.client) 2 st
  = (false,
     mkState [Sample.amber] None []
       [ Prompted (Py.nl ++ "> ")%string;
         Printed "Помилка: EOF when reading a line";
         Prompted (Py.nl ++ "> ")%string;
         Printed "Помилка: EOF when reading a line" ]
       []).
Proof.
  cbv zeta. split; [reflexivity|].
  exact (loop_spins_at_end_of_input (CLI.commands Sample.client) 2
           (Sample.fresh [Sample.amber] []) eq_refl).
Defined.

Lemma import_keeps_ids_distinct_witness :
  let st := Sample.fresh [Sample.amber] ["3"%string] in
  let st' := snd (ImportCommand.exec_command Sample.client
                    (Some "import"%string) [] st) in
  NoDup (map id (characters st)) /\
  NoDup (map id (characters st')).
Proof.
  cbv zeta.
  assert (Hnd : NoDup (map id (characters
                                 (Sample.fresh [Sample.amber] ["3"%string])))).
  { repeat constructor. intros []. }
  split; [exact Hnd|].
  exact (proj2 (proj2 (import_keeps_ids_distinct Sample.client
                         (Some "import"%string) []
                         (Sample.fresh [Sample.amber] ["3"%string]))) Hnd).
Defined.

Lemma distinct_ids_are_retrievable_witness :
  NoDup (map id [Sample.amber; Sample.lisa]) /\
  In Sample.lisa [Sample.amber; Sample.lisa] /\
  find_by_id [Sample.amber; Sample.lisa] (id Sample.lisa) = Some Sample.lisa.
Proof.
  assert (Hnd : NoDup (map id [Sample.amber; Sample.lisa])).
  { constructor; [intros [H|[]]; discriminate|].
    constructor; [intros [] | constructor]. }
  assert (Hin : In Sample.lisa [Sample.amber; Sample.lisa])
    by (right; left; reflexivity).
  split; [exact Hnd|]. split; [exact Hin|].
  exact (distinct_ids_are_retrievable [Sample.amber; Sample.lisa]
           Sample.lisa Hnd Hin).
Defined.

Lemma adds_keep_dense_ids_witness :
  let st := Sample.fresh [Sample.amber]
              (Spec.add_lines Sample.noelle_input ++
               Spec.add_lines Sample.fischl_input) in
  let ins := [Sample.noelle_input; Sample.fischl_input] in
  let st' := snd (Spec.add_many (length ins) st) in
  forallb Spec.valid_add ins = true /\
  stdin st = flat_map Spec.add_lines ins ++ [] /\
  Props.dense (characters st) /\
  Props.dense (characters st') /\
  forall c, In c (characters st') ->
            find_by_id (characters st') (id c) = Some c.
Proof.
  cbv zeta.
  assert (Hv : forallb Spec.valid_add
                 [Sample.noelle_input; Sample.fischl_input] = true)
    by reflexivity.
  assert (Hin : stdin (Sample.fresh [Sample.amber]
                         (Spec.add_lines Sample.noelle_input ++
                          Spec.add_lines Sample.fischl_input))
                = flat_map Spec.add_lines
                    [Sample.noelle_input; Sample.fischl_input] ++ [])
    by reflexivity.
  assert (Hd : Props.dense
                 (characters (Sample.fresh [Sample.amber]
                                (Spec.add_lines Sample.noelle_input ++
                                 Spec.add_lines Sample.fischl_input))))
    by reflexivity.
  split; [exact Hv|]. split; [exact Hin|]. split; [exact Hd|].
  exact (adds_keep_dense_ids _ _ _ Hv Hin Hd).
Defined.

Lemma import_of_empty_batch_witness :
  let st := Sample.fresh [Sample.amber] ["0"; "list"]%string in
  get_all_character_names Sample.client <> [] /\
  stdin st = "0"%string :: ["list"%string] /\
  Py.int "0" = Some 0 /\
  ImportCommand.exec_command Sample.client (Some "import"%string) [] st
  = (Ok tt,
     mkState [Sample.amber] None ["list"%string]
       [ Printed "=== Імпорт персонажів з API ===";
         Printed "Завантаження списку персонажів...";
         Printed "Знайдено 3 персонажів";
         Prompted "Скільки завантажити? (1-3): ";
         Printed "Завантаження 0 персонажів...";
         Printed "✓ Успішно імпортовано 0 персонажів!" ]
       []).
Proof.
  cbv zeta.
  assert (Hne : get_all_character_names Sample.client <> [])
    by discriminate.
  assert (Hin : stdin (Sample.fresh [Sample.amber] ["0"; "list"]%string)
                = "0"%string :: ["list"%string]) by reflexivity.
  assert (Hint : Py.int "0" = Some 0) by reflexivity.
  split; [exact Hne|]. split; [exact Hin|]. split; [exact Hint|].
  exact (import_of_empty_batch Sample.client (Some "import"%string) []
           (Sample.fresh [Sample.amber] ["0"; "list"]%string)
           "0" ["list"%string] 0 Hne Hin Hint (or_introl eq_refl)).
Defined.

Lemma import_default_count_is_shown_witness :
  let st := Sample.fresh [Sample.amber] ["many"%string] in
  let st' := snd (ImportCommand.exec_command Sample.client
                    (Some "import"%string) [] st) in
  get_all_character_names Sample.client <> [] /\
  stdin st = ["many"%string] /\
  Py.int "many" = None /\
  requests st' = ["albedo"; "bennett"; "chongyun"]%string /\
  exists imported : Z,
    console st' =
      [ Printed "=== Імпорт персонажів з API ===";
        Printed "Завантаження списку персонажів...";
        Printed "Знайдено 3 персонажів";
        Prompted "Скільки завантажити? (1-3): ";
        Printed "Завантаження 5 персонажів...";
        Printed "[1/5] Завантаження albedo...";
        Printed "[2/5] Завантаження bennett...";
        Printed "[3/5] Завантаження chongyun...";
        Spec.import_epilogue imported ].
Proof.
  cbv zeta.
  assert (Hne : get_all_character_names Sample.client <> [])
    by discriminate.
  assert (Hin : stdin (Sample.fresh [Sample.amber] ["many"%string])
                = "many"%string :: []) by reflexivity.
  assert (Hint : Py.int "many" = None) by reflexivity.
  destruct (import_default_count_is_shown Sample.client
              (Some "import"%string) []
              (Sample.fresh [Sample.amber] ["many"%string]) "many" []
              Hne Hin Hint) as (Hreq & _ & imported & Hcon).
  split; [exact Hne|]. split; [exact Hin|]. split; [exact Hint|].
  split; [exact Hreq|]. exists imported. exact Hcon.
Defined.

Lemma load_rejects_bad_item_witness :
  In (to_dict Sample.lisa) [Props.init_dict Sample.amber; to_dict Sample.lisa] /\
  (exists k, In k (map fst [ ("id", JInt 2); ("name", JStr "Lisa");
                             ("type", JStr "Electro"); ("health", JInt 90);
                             ("attack", JInt 12); ("image_url", JStr "") ]
                   )%string /\
             ~ In k init_params) /\
  load (Some (JArr [Props.init_dict Sample.amber; to_dict Sample.lisa]))
  = LoadTypeError.
Proof.
  assert (Hin : In (to_dict Sample.lisa)
                   [Props.init_dict Sample.amber; to_dict Sample.lisa])
    by (right; left; reflexivity).
  assert (Hkey : exists k,
             In k (map fst [ ("id", JInt 2); ("name", JStr "Lisa");
                             ("type", JStr "Electro"); ("health", JInt 90);
                             ("attack", JInt 12); ("image_url", JStr "") ]
                  )%string /\
             ~ In k init_params).
  { exists "type"%string. split; [right; right; left; reflexivity|].
    intros H. cbn in H.
    repeat (destruct H as [H|H]; [discriminate|]). exact H. }
  split; [exact Hin|]. split; [exact Hkey|].
  exact (load_rejects_bad_item
           [Props.init_dict Sample.amber; to_dict Sample.lisa]
           (to_dict Sample.lisa) Hin (or_introl Hkey)).
Defined.
